(** * CheckUpSite backend: prober, state tracker and monitoring cycle

    A shallow embedding of [backend/server.js].  The in-memory tracker
    [monitoringState] is a finite map from site names to records, the
    functions that mutate it run in a small state monad over the tracker
    and the Telegram outbox, and every clock reading ([Date.now()],
    [new Date().toISOString()]) is an explicit argument: the model keeps the
    millisecond reading, of which the ISO string is an injective rendering.

    Modelling conventions.
    - [null] and a missing property are both [None].
    - [monitoringState] is modelled by its own entries.  Under a name of
      [reservedNames] the code's lookup [monitoringState[name]] can find an
      object that is no entry of the tracker (a member inherited from
      [Object.prototype]); what the code does with such an object is not
      modelled, and every statement that reads the tracker by name assumes
      [ownLookup], under which the lookup of the code is the one of the
      model.
    - [changeCount] is a JS number that starts at 0 and advances by one; it
      is exact below 2^53 and modelled as a natural number.
    - [console.log] lines and the text of the Telegram message are not
      modelled; a call of [axios.post] is recorded by its arguments.
    - The [uptime] percentage string of the HTTP summaries is not modelled. *)

From Stdlib Require Import ZArith String.
From stdpp Require Import base option list gmap strings.
From Equations Require Import Equations.

Local Open Scope string_scope.
Local Open Scope Z_scope.

(** ** Data model *)

(** The two status strings ['UP'] and ['DOWN']. *)
Inductive Status : Type := UP | DOWN.

#[global] Instance Status_eq_dec : EqDecision Status.
Proof. solve_decision. Defined.

(** An entry of [sites.json]. *)
Record Site : Type := mkSite {
  name : string;
  url : string
}.

(** The object returned by [checkSite], and the fallback object built by the
    [.catch] handler of a monitoring cycle (which sets [status], [error] and
    [checkedAt] only). *)
Record CheckResult : Type := mkCheckResult {
  status : Status;
  statusCode : option Z;
  responseTime : option Z;
  checkedAt : Z;
  error : option string;
  errorType : option string
}.

(** What [await axios.get(url, ...)] does: it yields a response with a status
    code ([validateStatus] accepts every code), or throws an error object
    with an optional [code] and a [message]. *)
Record AxiosError : Type := mkAxiosError {
  code : option string;
  message : string
}.

Inductive AxiosOutcome : Type :=
| Response (responseStatus : Z)
| Throws (err : AxiosError).

(** [s.includes(needle)] *)
Definition includes (s needle : string) : bool :=
  match String.index 0 needle s with
  | Some _ => true
  | None => false
  end.

(** [error.code === c] *)
Definition code_is (e : AxiosError) (c : string) : bool :=
  match code e with
  | Some c' => bool_decide (c' = c)
  | None => false
  end.

(** ** Prober *)

(** The [catch] block of [checkSite]: the pair [(errorMessage, errorType)]. *)
Definition classifyError (e : AxiosError) : string * string :=
  if code_is e "ECONNABORTED" then
    ("Request timeout (5 seconds)", "Timeout")
  else if code_is e "ENOTFOUND" then
    ("Domain not found", "DNS Error")
  else if code_is e "ECONNREFUSED" then
    ("Connection refused", "Connection Error")
  else if code_is e "ERR_TLS_CERT_ALTNAME_INVALID"
          || code_is e "CERT_HAS_EXPIRED"
          || includes (message e) "certificate" then
    ("SSL certificate issue (but connection was made)", "SSL Warning")
  else if includes (message e) "getaddrinfo" then
    ("Network error", "Network Error")
  else if bool_decide (message e ≠ "") then
    (message e, "Unknown")
  else
    ("Unknown error", "Unknown").

(** [checkSite(url)].  [startTime] is the first [Date.now()], [endTime] the
    second one, [stamp] the reading of [new Date()] for [checkedAt]; [o] is
    what the request to [url] did. *)
Definition checkSite (startTime endTime stamp : Z) (o : AxiosOutcome)
  : CheckResult :=
  match o with
  | Response c =>
      {| status := if (200 <=? c) && (c <? 400) then UP else DOWN;
         statusCode := Some c;
         responseTime := Some (endTime - startTime);
         checkedAt := stamp;
         error := None;
         errorType := None |}
  | Throws e =>
      let '(errorMessage, errorType) := classifyError e in
      {| status := DOWN;
         statusCode := None;
         responseTime := Some (endTime - startTime);
         checkedAt := stamp;
         error := Some errorMessage;
         errorType := Some errorType |}
  end.

(** The error taxonomy of the specification, and the [errorType] string
    the code uses for each kind. *)
Inductive ErrorKind : Type :=
| Timeout | DnsError | ConnectionRefused | TlsError | NetworkError | Unknown.

Definition errorKindOf (errorType : string) : option ErrorKind :=
  if bool_decide (errorType = "Timeout") then Some Timeout
  else if bool_decide (errorType = "DNS Error") then Some DnsError
  else if bool_decide (errorType = "Connection Error") then Some ConnectionRefused
  else if bool_decide (errorType = "SSL Warning") then Some TlsError
  else if bool_decide (errorType = "Network Error") then Some NetworkError
  else if bool_decide (errorType = "Unknown") then Some Unknown
  else None.

(** ** State tracker *)

(** A value of [monitoringState]. *)
Record SiteState : Type := mkSiteState {
  st_name : string;
  st_url : string;
  lastStatus : option Status;
  lastCheckedAt : option Z;
  lastChangedAt : option Z;
  changeCount : N;
  lastStatusCode : option Z;
  lastError : option string
}.

(** The argument of one call of [axios.post] to the Telegram API. *)
Record TelegramAlert : Type := mkTelegramAlert {
  a_siteName : string;
  a_url : string;
  a_newStatus : Status;
  a_previousStatus : Status;
  a_statusCode : option Z;
  a_responseTime : option Z;
  a_error : option string;
  a_checkedAt : Z
}.

(** The object returned by [updateMonitoringState] on a state change
    ([siteChanged] is always [true] and is left out). *)
Record ChangeEvent : Type := mkChangeEvent {
  siteName : string;
  previousStatus : Status;
  newStatus : Status;
  changedAt : Z;
  ev_changeCount : N
}.

(** The mutable part of the process: the tracker map and the messages
    posted to Telegram so far (latest last). *)
Record World : Type := mkWorld {
  monitoringState : gmap string SiteState;
  outbox : list TelegramAlert
}.

(** The names under which [monitoringState[name]] can yield something that
    is not an entry of the tracker: the twelve members that the plain object
    [monitoringState] inherits from [Object.prototype], and the six fields
    that [updateMonitoringState] assigns to [currentState], which become
    members of [Object.prototype] itself once [currentState] is the object
    found under [__proto__]. *)
Definition reservedNames : list string :=
  ["constructor"; "__defineGetter__"; "__defineSetter__"; "hasOwnProperty";
   "__lookupGetter__"; "__lookupSetter__"; "isPrototypeOf";
   "propertyIsEnumerable"; "toString"; "valueOf"; "__proto__";
   "toLocaleString";
   "lastStatus"; "lastCheckedAt"; "lastStatusCode"; "lastError";
   "changeCount"; "lastChangedAt"].

(** [monitoringState[n]] is the entry of the tracker for [n], or [undefined]
    when there is none: [n] has an entry of its own, which comes first in
    the lookup, or nothing can be inherited under [n]. *)
Definition ownLookup (w : World) (n : string) : Prop :=
  n ∉ reservedNames \/ is_Some (monitoringState w !! n).

(** Code that reads and writes the world. *)
Definition Tracker (A : Type) : Type := World -> A * World.

Definition ret {A} (a : A) : Tracker A := fun w => (a, w).

Definition bind {A B} (m : Tracker A) (k : A -> Tracker B) : Tracker B :=
  fun w => let (a, w') := m w in k a w'.

Notation "x <- c1 ;; c2" := (bind c1 (fun x => c2))
  (at level 100, c1 at next level, right associativity).
Notation "c1 ;;; c2" := (bind c1 (fun _ => c2))
  (at level 100, right associativity).

(** [getSiteState(siteName)], also [monitoringState[siteName]], where
    [ownLookup] holds of [siteName]: the entry of the tracker, if any. *)
Definition getSiteState (siteName : string) : Tracker (option SiteState) :=
  fun w => (monitoringState w !! siteName, w).

(** [monitoringState[siteName] = s] *)
Definition setSiteState (siteName : string) (s : SiteState) : Tracker unit :=
  fun w => (tt, {| monitoringState := <[siteName := s]> (monitoringState w);
                   outbox := outbox w |}).

(** An assignment to fields of the object [monitoringState[siteName]], which
    exists when this is called. *)
Definition assignSiteState (siteName : string) (f : SiteState -> SiteState)
  : Tracker unit :=
  fun w => (tt, {| monitoringState := alter f siteName (monitoringState w);
                   outbox := outbox w |}).

Fixpoint forEach {A} (f : A -> Tracker unit) (l : list A) : Tracker unit :=
  match l with
  | [] => ret tt
  | x :: l' => f x ;;; forEach f l'
  end.

(** ** Promises *)

(** A settled promise.  A rejection carries the [message] of its reason. *)
Inductive Promise (A : Type) : Type :=
| Fulfilled (value : A)
| Rejected (reason : string).

Arguments Fulfilled {A} value.
Arguments Rejected {A} reason.

(** [p.then(onFulfilled)], once [p] has settled. *)
Definition then_ {A B} (p : Promise A) (onFulfilled : A -> Tracker B)
  : Tracker (Promise B) :=
  match p with
  | Fulfilled value => b <- onFulfilled value ;; ret (Fulfilled b)
  | Rejected reason => ret (Rejected reason)
  end.

(** [p.catch(onRejected)], once [p] has settled. *)
Definition catch_ {A} (p : Promise A) (onRejected : string -> Tracker A)
  : Tracker (Promise A) :=
  match p with
  | Fulfilled value => ret (Fulfilled value)
  | Rejected reason => a <- onRejected reason ;; ret (Fulfilled a)
  end.

(** The promise chains of [tasks] run as their probes settle: [order] lists
    the indices of the tasks in that order.  The result pairs each index
    with what its chain settled to. *)
Fixpoint settleAll {T A} (chain : T -> Tracker (Promise A)) (tasks : list T)
    (order : list nat) : Tracker (list (nat * Promise A)) :=
  match order with
  | [] => ret []
  | i :: rest =>
      match tasks !! i with
      | Some t =>
          p <- chain t ;;
          ps <- settleAll chain tasks rest ;;
          ret ((i, p) :: ps)
      | None => settleAll chain tasks rest
      end
  end.

(** [Promise.all] over [n] promises that settle as listed: rejected by the
    first rejection, fulfilled with the values in the order of the promises
    once every one is fulfilled, and pending forever ([None]) otherwise. *)
Fixpoint promiseAllFrom {A} (n : nat) (chains : list (nat * Promise A))
    (got : gmap nat A) : option (Promise (list A)) :=
  match chains with
  | [] => Fulfilled <$> mapM (fun i => got !! i) (seq 0 n)
  | (_, Rejected reason) :: _ => Some (Rejected reason)
  | (i, Fulfilled value) :: rest => promiseAllFrom n rest (<[i := value]> got)
  end.

Definition promiseAll {A} (n : nat) (chains : list (nat * Promise A))
  : option (Promise (list A)) :=
  promiseAllFrom n chains ∅.

Section Backend.

(** [Boolean(TELEGRAM_BOT_TOKEN && TELEGRAM_CHAT_ID)] *)
Variable TELEGRAM_ENABLED : bool.

(** [sendTelegramAlert]: nothing is posted unless alerts are enabled; a
    failure of the post is logged and swallowed. *)
Definition sendTelegramAlert (a : TelegramAlert) : Tracker unit :=
  fun w =>
    if TELEGRAM_ENABLED
    then (tt, {| monitoringState := monitoringState w;
                 outbox := outbox w ++ [a] |})
    else (tt, w).

(** The outbox after a call of [sendTelegramAlert]. *)
Definition posted (a : TelegramAlert) (sent : list TelegramAlert)
  : list TelegramAlert :=
  if TELEGRAM_ENABLED then sent ++ [a] else sent.

(** The state a site is seeded with. *)
Definition freshSiteState (site : Site) : SiteState :=
  {| st_name := name site;
     st_url := url site;
     lastStatus := None;
     lastCheckedAt := None;
     lastChangedAt := None;
     changeCount := 0%N;
     lastStatusCode := None;
     lastError := None |}.

(** [initializeMonitoringState()], where [sites] is what [loadSites()]
    returns.  For a site whose name is reserved and has no entry this is not
    what the code does: [!monitoringState[site.name]] is false there and the
    code seeds nothing. *)
Definition initializeMonitoringState (sites : list Site) : Tracker unit :=
  forEach (fun site =>
    known <- getSiteState (name site) ;;
    match known with
    | Some _ => ret tt
    | None => setSiteState (name site) (freshSiteState site)
    end) sites.

(** The four assignments under [// Update state]. *)
Definition recordCheck (checkResult : CheckResult) (s : SiteState) : SiteState :=
  {| st_name := st_name s;
     st_url := st_url s;
     lastStatus := Some (status checkResult);
     lastCheckedAt := Some (checkedAt checkResult);
     lastChangedAt := lastChangedAt s;
     changeCount := changeCount s;
     lastStatusCode := statusCode checkResult;
     lastError := error checkResult |}.

(** [currentState.changeCount++; currentState.lastChangedAt = now] *)
Definition recordChange (now : Z) (s : SiteState) : SiteState :=
  {| st_name := st_name s;
     st_url := st_url s;
     lastStatus := lastStatus s;
     lastCheckedAt := lastCheckedAt s;
     lastChangedAt := Some now;
     changeCount := (changeCount s + 1)%N;
     lastStatusCode := lastStatusCode s;
     lastError := lastError s |}.

(** [previousStatus !== null && previousStatus !== newStatus] *)
Definition statusChanged (previousStatus : option Status) (newStatus : Status)
  : option Status :=
  match previousStatus with
  | Some prev => if bool_decide (prev ≠ newStatus) then Some prev else None
  | None => None
  end.

(** [updateMonitoringState(siteName, checkResult)] where [ownLookup] holds
    of [siteName]; [now] is the reading of
    [new Date()] taken when a change is detected.  (Under a reserved name
    with no entry, [currentState] can be an inherited object, on which the
    code runs the assignments, reports a change and posts an alert.)  The
    returned object reads
    [lastChangedAt] and [changeCount] back from the state just assigned: they
    are [now] and the former count plus one. *)
Definition updateMonitoringState (siteName : string) (checkResult : CheckResult)
    (now : Z) : Tracker (option ChangeEvent) :=
  currentState <- getSiteState siteName ;;
  match currentState with
  | None => ret None
  | Some currentState =>
      let previousStatus := lastStatus currentState in
      let newStatus := status checkResult in
      assignSiteState siteName (recordCheck checkResult) ;;;
      match statusChanged previousStatus newStatus with
      | Some previousStatus =>
          assignSiteState siteName (recordChange now) ;;;
          sendTelegramAlert
            {| a_siteName := siteName;
               a_url := st_url currentState;
               a_newStatus := newStatus;
               a_previousStatus := previousStatus;
               a_statusCode := statusCode checkResult;
               a_responseTime := responseTime checkResult;
               a_error := error checkResult;
               a_checkedAt := checkedAt checkResult |} ;;;
          ret (Some {| siteName := siteName;
                       previousStatus := previousStatus;
                       newStatus := newStatus;
                       changedAt := now;
                       ev_changeCount := (changeCount currentState + 1)%N |})
      | None => ret None
      end
  end.

(** The calls [updateMonitoringState(siteName, r)] that successive probes
    of one site make, each with the reading of the clock at the call. *)
Fixpoint updateAll (siteName : string) (probes : list (CheckResult * Z))
  : Tracker (list (option ChangeEvent)) :=
  match probes with
  | [] => ret []
  | (checkResult, now) :: rest =>
      change <- updateMonitoringState siteName checkResult now ;;
      changes <- updateAll siteName rest ;;
      ret (change :: changes)
  end.

(** The number of transitions in a run of observed statuses that follows
    [prev]: an observation counts when the one before it is known and
    differs from it. *)
Fixpoint transitions (prev : option Status) (observed : list Status) : N :=
  match observed with
  | [] => 0%N
  | s :: rest =>
      ((match prev with
        | Some p => if bool_decide (p = s) then 0 else 1
        | None => 0
        end) + transitions (Some s) rest)%N
  end.

(** ** Monitoring cycle *)

(** [sites.map(...)] starts one probe per entry of [loadSites()].  A task is
    one of them: its site, what the promise [checkSite(site.url)] settles
    to, and the reading of the clock when its handlers run. *)
Record Task : Type := mkTask {
  site : Site;
  settled : Promise CheckResult;
  handledAt : Z
}.

(** [{ name: site.name, url: site.url, ...result }] *)
Record SiteResult : Type := mkSiteResult {
  r_name : string;
  r_url : string;
  r_check : CheckResult
}.

Record Summary : Type := mkSummary {
  total : nat;
  up : nat;
  down : nat
}.

(** The object returned by [performAutomaticMonitoring] ([monitoringCycle]
    is always [true] and is left out). *)
Record Report : Type := mkReport {
  timestamp : Z;
  results : list SiteResult;
  stateChanges : list ChangeEvent;
  summary : Summary
}.

(** The answers of [GET /api/check]. *)
Inductive HttpResponse : Type :=
| Status400
| Status200 (timestamp : Z) (summary : Summary) (sites : list SiteResult)
| Status500 (errorMessage : string).

(** [results.filter(r => r.status === s).length] *)
Definition countStatus (s : Status) (results : list SiteResult) : nat :=
  length (filter (fun r => status (r_check r) = s) results).

Definition summarize (results : list SiteResult) : Summary :=
  {| total := length results;
     up := countStatus UP results;
     down := countStatus DOWN results |}.

(** The promise chain of one site in a monitoring cycle, run when its probe
    settles.  The chain is fulfilled with the site's result; the second
    component is what the [.then] handler pushes on [stateChanges]. *)
Definition monitorSite (t : Task)
  : Tracker (Promise (SiteResult * option ChangeEvent)) :=
  p <- then_ (settled t) (fun result =>
         change <- updateMonitoringState (name (site t)) result (handledAt t) ;;
         ret ({| r_name := name (site t);
                 r_url := url (site t);
                 r_check := result |}, change)) ;;
  catch_ p (fun reason =>
    ret ({| r_name := name (site t);
            r_url := url (site t);
            r_check := {| status := DOWN;
                          statusCode := None;
                          responseTime := None;
                          checkedAt := handledAt t;
                          error := Some reason;
                          errorType := None |} |}, None)).

(** The value the chain of [monitorSite] is fulfilled with: the probe's
    result under the site's name and url, or the fallback of the [.catch]
    handler. *)
Definition cycleResult (t : Task) : SiteResult :=
  {| r_name := name (site t);
     r_url := url (site t);
     r_check := match settled t with
                | Fulfilled result => result
                | Rejected reason =>
                    {| status := DOWN;
                       statusCode := None;
                       responseTime := None;
                       checkedAt := handledAt t;
                       error := Some reason;
                       errorType := None |}
                end |}.

(** The promise chain of one site in [GET /api/check]. *)
Definition checkOnly (t : Task) : Tracker (Promise SiteResult) :=
  then_ (settled t) (fun result =>
    ret {| r_name := name (site t);
           r_url := url (site t);
           r_check := result |}).

(** The changes pushed on [stateChanges], in the order of the pushes. *)
Definition pushedChanges {A}
    (chains : list (nat * Promise (A * option ChangeEvent)))
  : list ChangeEvent :=
  omap (fun c => match snd c with
                 | Fulfilled (_, Some change) => Some change
                 | _ => None
                 end) chains.

(** [performAutomaticMonitoring()].  [tasks] are the probes of this cycle in
    the order of [loadSites()], [order] lists their indices in the order in
    which they settle, [timestamp] is the reading of the clock for the
    report.  The result is [None] when the [await] never returns. *)
Definition performAutomaticMonitoring (tasks : list Task) (order : list nat)
    (timestamp : Z) : Tracker (option (Promise Report)) :=
  chains <- settleAll monitorSite tasks order ;;
  ret (match promiseAll (length tasks) chains with
       | Some (Fulfilled values) =>
           let results := map fst values in
           Some (Fulfilled {| timestamp := timestamp;
                              results := results;
                              stateChanges := pushedChanges chains;
                              summary := summarize results |})
       | Some (Rejected reason) => Some (Rejected reason)
       | None => None
       end).

(** The handler of [GET /api/check], with the same arguments.  The result is
    [None] when the request is never answered. *)
Definition apiCheck (tasks : list Task) (order : list nat) (timestamp : Z)
  : Tracker (option HttpResponse) :=
  if bool_decide (length tasks = 0%nat) then ret (Some Status400)
  else
    chains <- settleAll checkOnly tasks order ;;
    ret (match promiseAll (length tasks) chains with
         | Some (Fulfilled results) =>
             Some (Status200 timestamp (summarize results) results)
         | Some (Rejected reason) => Some (Status500 reason)
         | None => None
         end).

End Backend.

(** ** Status endpoints and start-up *)

(** The body of a 200 answer of [GET /api/status] ([success], [source] and
    the [uptime] string are left out).  [sites] lists the values of
    [monitoringState]; the model lists them in the order of the finite map,
    not in the order of insertion. *)
Record StatusAnswer : Type := mkStatusAnswer {
  sa_timestamp : Z;
  sa_summary : Summary;
  sa_sites : list SiteState
}.

(** [statusData.filter(s => s.lastStatus === status).length] *)
Definition countLastStatus (s : Status) (statusData : list SiteState) : nat :=
  length (filter (fun state => lastStatus state = Some s) statusData).

(** The handler of [GET /api/status]. *)
Definition apiStatus (timestamp : Z) : Tracker StatusAnswer :=
  fun w =>
    let statusData := (map_to_list (monitoringState w)).*2 in
    ({| sa_timestamp := timestamp;
        sa_summary := {| total := length statusData;
                         up := countLastStatus UP statusData;
                         down := countLastStatus DOWN statusData |};
        sa_sites := statusData |}, w).

(** The answers of [GET /api/status/:siteName]. *)
Inductive SiteStatusAnswer : Type :=
| SiteStatus404 (siteName : string)
| SiteStatus200 (timestamp : Z) (site : SiteState).

(** The handler of [GET /api/status/:siteName], where [ownLookup] holds of
    [siteName] (under a reserved name with no entry the code can answer 200
    with the fields of an inherited object). *)
Definition apiSiteStatus (siteName : string) (timestamp : Z)
  : Tracker SiteStatusAnswer :=
  state <- getSiteState siteName ;;
  ret (match state with
       | None => SiteStatus404 siteName
       | Some state => SiteStatus200 timestamp state
       end).

(** [setupAutomaticMonitoring()] up to the first cycle: the tracker is
    initialised with the sites read then, and the first cycle runs over the
    sites read next.  The cron job it schedules runs
    [performAutomaticMonitoring] again every five minutes. *)
Definition setupAutomaticMonitoring (TELEGRAM_ENABLED : bool)
    (sites : list Site) (tasks : list Task) (order : list nat)
    (timestamp : Z) : Tracker (option (Promise Report)) :=
  initializeMonitoringState sites ;;;
  performAutomaticMonitoring TELEGRAM_ENABLED tasks order timestamp.

(** What holds of every entry of the tracker in a running process: it is
    filed under its own name; a site that was never checked has no check
    time, status code, error or change; and a change time is recorded
    exactly when the count is not zero. *)
Definition siteStateOk (n : string) (s : SiteState) : Prop :=
  st_name s = n /\
  (lastStatus s = None ->
   lastCheckedAt s = None /\ lastStatusCode s = None /\ lastError s = None /\
   changeCount s = 0%N) /\
  (changeCount s = 0%N <-> lastChangedAt s = None).

Definition trackerOk (w : World) : Prop :=
  forall n s, monitoringState w !! n = Some s -> siteStateOk n s.

(** [w'] comes after [w] in a run of the process: the same names are
    tracked, each under the same name and url, no count has gone down, no
    known status has been forgotten, and the alerts posted so far are still
    there. *)
Definition trackerExtends (w w' : World) : Prop :=
  dom (monitoringState w') = dom (monitoringState w) /\
  (forall n s, monitoringState w !! n = Some s ->
     exists s', monitoringState w' !! n = Some s' /\
       st_name s' = st_name s /\ st_url s' = st_url s /\
       (changeCount s <= changeCount s')%N /\
       (is_Some (lastStatus s) -> is_Some (lastStatus s'))) /\
  outbox w `prefix_of` outbox w'.

(** What an alert and a change event say about a change: the site and the
    two statuses. *)
Definition alertKey (a : TelegramAlert) : string * Status * Status :=
  (a_siteName a, a_previousStatus a, a_newStatus a).

Definition eventKey (e : ChangeEvent) : string * Status * Status :=
  (siteName e, previousStatus e, newStatus e).

(** ** Dashboard

    The page script that calls the backend.  The error banner of the page is
    modelled by what it says, the stat cards by the numbers they show (the
    rounded [uptime] percentage is left out), the site cards by the results
    they are built from. *)

(** The unit [getTimeAgo] picks: the text is [`${amount}s ago`],
    [`${amount}m ago`], [`${amount}h ago`] or [`${amount}d ago`]. *)
Inductive TimeUnit : Type := Seconds | Minutes | Hours | Days.

Definition unitSeconds (u : TimeUnit) : Z :=
  match u with
  | Seconds => 1
  | Minutes => 60
  | Hours => 3600
  | Days => 86400
  end.

(** [getTimeAgo(date)], where [now] and [date] are the millisecond readings
    of [new Date()] and of [date]. *)
Definition getTimeAgo (now date : Z) : Z * TimeUnit :=
  let secondsAgo := (now - date) / 1000 in
  if secondsAgo <? 60 then (secondsAgo, Seconds)
  else if secondsAgo <? 3600 then (secondsAgo / 60, Minutes)
  else if secondsAgo <? 86400 then (secondsAgo / 3600, Hours)
  else (secondsAgo / 86400, Days).

(** What a [fetch] of [/health] does: a response with [response.ok], a
    response without, or a rejection (network failure or abort after the
    timeout). *)
Inductive FetchOutcome : Type := FetchOk | FetchNotOk | FetchFails.

(** Why the banner reports an error: [error.message] is that of the
    [Error] thrown for a response that is not ok, or that of the rejection
    of [fetch]. *)
Inductive ErrorCause : Type :=
| BackendReturned (httpStatus : Z)
| FetchRejected (message : string).

(** The messages of [showError]. *)
Inductive BannerText : Type :=
| WarmingUp (attempt maxRetries : nat)
| NotResponding
| NoSitesConfigured
| RequestTimeout
| ErrorShown (cause : ErrorCause).

(** [pingBackend(retryCount, maxRetries)] with the retries it schedules:
    [health k] is what the fetch of the call with [retryCount = k] does and
    [banner] what the banner shows at the call ([None] when hidden).  The
    result is the banner after the last call and the number of fetches. *)
Equations? pingBackend (health : nat -> FetchOutcome)
    (retryCount maxRetries : nat) (banner : option BannerText)
  : option BannerText * nat by wf (maxRetries - retryCount)%nat lt :=
  pingBackend health retryCount maxRetries banner with health retryCount := {
    | FetchOk => (None, 1%nat)
    | FetchNotOk => (banner, 1%nat)
    | FetchFails with decide (retryCount < maxRetries)%nat := {
        | left _ =>
            let '(shown, fetches) :=
              pingBackend health (retryCount + 1) maxRetries
                (Some (WarmingUp (retryCount + 1) maxRetries)) in
            (shown, S fetches)
        | right _ => (Some NotResponding, 1%nat) } }.
Proof. lia. Qed.

(** What the [fetch] of [/api/check] does: it is aborted after 120 s, it is
    rejected, or the backend answers. *)
Inductive CheckFetch : Type :=
| CheckAborted
| CheckRejected (message : string)
| CheckAnswered (answer : HttpResponse).

(** The state of the page: the guard [isChecking], the banner, the data kept
    in [localStorage], and what the stat cards, the time line and the site
    cards show. *)
Record Dashboard : Type := mkDashboard {
  isChecking : bool;
  banner : option BannerText;
  stored : option (Z * Summary * list SiteResult);
  stats : option Summary;
  lastChecked : option Z;
  cards : list SiteResult
}.

(** [showError(message)] *)
Definition showError (message : BannerText) (d : Dashboard) : Dashboard :=
  {| isChecking := isChecking d;
     banner := Some message;
     stored := stored d;
     stats := stats d;
     lastChecked := lastChecked d;
     cards := cards d |}.

(** [clearError()] *)
Definition clearError (d : Dashboard) : Dashboard :=
  {| isChecking := isChecking d;
     banner := None;
     stored := stored d;
     stats := stats d;
     lastChecked := lastChecked d;
     cards := cards d |}.

Definition setChecking (b : bool) (d : Dashboard) : Dashboard :=
  {| isChecking := b;
     banner := banner d;
     stored := stored d;
     stats := stats d;
     lastChecked := lastChecked d;
     cards := cards d |}.

(** [saveToLocalStorage(data)]; a failure of [localStorage] is logged and
    swallowed. *)
Definition saveToLocalStorage (storageWorks : bool) (timestamp : Z)
    (summary : Summary) (sites : list SiteResult) (d : Dashboard) : Dashboard :=
  if storageWorks then
    {| isChecking := isChecking d;
       banner := banner d;
       stored := Some (timestamp, summary, sites);
       stats := stats d;
       lastChecked := lastChecked d;
       cards := cards d |}
  else d.

(** [updateDashboard(data)] for data with a [sites] array. *)
Definition updateDashboard (timestamp : Z) (sites : list SiteResult)
    (d : Dashboard) : Dashboard :=
  {| isChecking := isChecking d;
     banner := banner d;
     stored := stored d;
     stats := Some {| total := length sites;
                      up := countStatus UP sites;
                      down := countStatus DOWN sites |};
     lastChecked := Some timestamp;
     cards := sites |}.

(** [checkSites()] of the page, given what its fetch does. *)
Definition checkSites (storageWorks : bool) (f : CheckFetch) (d : Dashboard)
  : Dashboard :=
  if isChecking d then d
  else
    let d1 := clearError (setChecking true d) in
    let d2 :=
      match f with
      | CheckAnswered (Status200 timestamp summary sites) =>
          match sites with
          | [] => showError NoSitesConfigured d1
          | _ => updateDashboard timestamp sites
                   (saveToLocalStorage storageWorks timestamp summary sites d1)
          end
      | CheckAnswered Status400 => showError (ErrorShown (BackendReturned 400)) d1
      | CheckAnswered (Status500 _) =>
          showError (ErrorShown (BackendReturned 500)) d1
      | CheckAborted => showError RequestTimeout d1
      | CheckRejected message => showError (ErrorShown (FetchRejected message)) d1
      end in
    setChecking false d2.

(** ** Sample data *)

Definition siteA : Site := mkSite "A" "http://ok".
Definition siteB : Site := mkSite "B" "http://timeout".

Definition emptyWorld : World := mkWorld ∅ [].

(** The world after start-up with the two sites. *)
Definition seededWorld : World :=
  snd (initializeMonitoringState [siteA; siteB] emptyWorld).

(** Site A answers 200 after 50 ms. *)
Definition probeA : Task :=
  mkTask siteA (Fulfilled (checkSite 0 50 50 (Response 200))) 51.

(** Site A answers 503. *)
Definition probeA503 : Task :=
  mkTask siteA (Fulfilled (checkSite 300000 300040 300040 (Response 503))) 300041.

(** Site B times out after 5000 ms. *)
Definition probeB : Task :=
  mkTask siteB
    (Fulfilled (checkSite 0 5000 5000
       (Throws (mkAxiosError (Some "ECONNABORTED") "timeout of 5000ms exceeded"))))
    5001.

(** The promise of the probe of site B is rejected. *)
Definition probeBroken : Task := mkTask siteB (Rejected "boom") 7.

(** Five probes of one site: UP, UP, DOWN, DOWN, UP. *)
Definition fiveProbes : list (CheckResult * Z) :=
  [(checkSite 0 50 50 (Response 200), 51);
   (checkSite 300000 300050 300050 (Response 301), 300051);
   (checkSite 600000 600050 600050 (Response 500), 600051);
   (checkSite 900000 900050 900050 (Response 404), 900051);
   (checkSite 1200000 1200050 1200050 (Response 204), 1200051)].

(** The world after the first cycle, in which A answers 200. *)
Definition checkedWorld : World :=
  snd (performAutomaticMonitoring true [probeA] [0%nat] 6000 seededWorld).

(** The page before any check. *)
Definition idleDashboard : Dashboard := mkDashboard false None None None None [].

(** * Properties *)

(** ** Prober *)

Example checkSite_200 : status (checkSite 0 50 50 (Response 200)) = UP.
Proof. reflexivity. Qed.

Example checkSite_timeout :
  errorType (checkSite 0 5000 5000
    (Throws (mkAxiosError (Some "ECONNABORTED") "timeout of 5000ms exceeded")))
  = Some "Timeout".
Proof. reflexivity. Qed.

Example checkSite_cert :
  errorType (checkSite 0 7 7
    (Throws (mkAxiosError None "unable to verify the first certificate")))
  = Some "SSL Warning".
Proof. reflexivity. Qed.

(** C1: for every status code [c] of a received response, [checkSite] says
    UP exactly when 200 <= c < 400 and DOWN otherwise; in both cases the
    code is recorded and no error is reported. *)
Theorem C1_classify_by_status_code (startTime endTime stamp c : Z) :
  let r := checkSite startTime endTime stamp (Response c) in
  (status r = UP <-> 200 <= c < 400) /\
  (status r = DOWN <-> ~ (200 <= c < 400)) /\
  statusCode r = Some c /\
  error r = None /\
  errorType r = None.
Proof.
  cbn. destruct (200 <=? c) eqn:Hlo; destruct (c <? 400) eqn:Hhi; cbn;
    repeat split; try discriminate; try reflexivity; intros; lia.
Qed.

Example classify_examples :
  map (fun c => status (checkSite 0 1 1 (Response c))) [200; 301; 399; 400; 404; 500; 199]
  = [UP; UP; UP; DOWN; DOWN; DOWN; DOWN].
Proof. reflexivity. Qed.

Lemma classifyError_errorType (e : AxiosError) :
  snd (classifyError e) ∈
    ["Timeout"; "DNS Error"; "Connection Error"; "SSL Warning";
     "Network Error"; "Unknown"].
Proof.
  unfold classifyError.
  repeat match goal with
         | |- context [if ?b then _ else _] => destruct b
         end; cbn; set_solver.
Qed.

Lemma errorKindOf_errorType (ty : string) :
  ty ∈ ["Timeout"; "DNS Error"; "Connection Error"; "SSL Warning";
        "Network Error"; "Unknown"] ->
  is_Some (errorKindOf ty).
Proof.
  intros H. repeat (apply elem_of_cons in H as [-> | H]); try (by eexists).
  by apply elem_of_nil in H.
Qed.

(** C6: when the request throws instead of yielding a response, the result
    is DOWN, has no status code, has the elapsed time, and its [errorType]
    names one of the six error kinds; each of the six occurs. *)
Theorem C6_no_response_is_down (startTime endTime stamp : Z) (e : AxiosError) :
  let r := checkSite startTime endTime stamp (Throws e) in
  status r = DOWN /\
  statusCode r = None /\
  responseTime r = Some (endTime - startTime) /\
  (exists ty k, errorType r = Some ty /\ errorKindOf ty = Some k) /\
  (forall k, exists e',
      errorType (checkSite startTime endTime stamp (Throws e')) ≫= errorKindOf
      = Some k).
Proof.
  cbn. pose proof (classifyError_errorType e) as Hty.
  destruct (classifyError e) as [msg ty] eqn:Hc. cbn in *.
  repeat split.
  - destruct (errorKindOf_errorType ty Hty) as [k Hk]. by exists ty, k.
  - intros [].
    + by exists (mkAxiosError (Some "ECONNABORTED") "timeout of 5000ms exceeded").
    + by exists (mkAxiosError (Some "ENOTFOUND") "getaddrinfo ENOTFOUND nowhere.invalid").
    + by exists (mkAxiosError (Some "ECONNREFUSED") "connect ECONNREFUSED 127.0.0.1:9").
    + by exists (mkAxiosError (Some "CERT_HAS_EXPIRED") "certificate has expired").
    + by exists (mkAxiosError (Some "EAI_AGAIN") "getaddrinfo EAI_AGAIN example.org").
    + by exists (mkAxiosError (Some "ECONNRESET") "socket hang up").
Qed.

(** ** State tracker *)

Section Tracker_properties.

Variable enabled : bool.

Lemma alter_known {A} (f : A -> A) (m : gmap string A) (i : string) (x : A) :
  m !! i = Some x -> alter f i m = <[i := f x]> m.
Proof.
  intros Hx. apply map_eq. intros j.
  destruct (decide (i = j)) as [<- | Hne].
  - by rewrite lookup_alter_eq, lookup_insert_eq, Hx.
  - by rewrite lookup_alter_ne, lookup_insert_ne.
Qed.

Lemma update_unknown (siteName : string) (r : CheckResult) (now : Z) (w : World) :
  monitoringState w !! siteName = None ->
  updateMonitoringState enabled siteName r now w = (None, w).
Proof.
  intros Hnone. unfold updateMonitoringState, bind, getSiteState.
  by rewrite Hnone.
Qed.

Lemma update_steady (siteName : string) (r : CheckResult) (now : Z) (w : World)
    (s : SiteState) :
  monitoringState w !! siteName = Some s ->
  statusChanged (lastStatus s) (status r) = None ->
  updateMonitoringState enabled siteName r now w
  = (None, {| monitoringState := <[siteName := recordCheck r s]> (monitoringState w);
              outbox := outbox w |}).
Proof.
  intros Hs Hsame.
  unfold updateMonitoringState, bind, getSiteState, assignSiteState, ret.
  rewrite Hs, Hsame. cbn. by rewrite (alter_known _ _ _ _ Hs).
Qed.

Lemma update_changed (siteName : string) (r : CheckResult) (now : Z) (w : World)
    (s : SiteState) (prev : Status) :
  monitoringState w !! siteName = Some s ->
  statusChanged (lastStatus s) (status r) = Some prev ->
  updateMonitoringState enabled siteName r now w
  = (Some {| siteName := siteName;
             previousStatus := prev;
             newStatus := status r;
             changedAt := now;
             ev_changeCount := (changeCount s + 1)%N |},
     {| monitoringState :=
          <[siteName := recordChange now (recordCheck r s)]> (monitoringState w);
        outbox := posted enabled
                    {| a_siteName := siteName;
                       a_url := st_url s;
                       a_newStatus := status r;
                       a_previousStatus := prev;
                       a_statusCode := statusCode r;
                       a_responseTime := responseTime r;
                       a_error := error r;
                       a_checkedAt := checkedAt r |} (outbox w) |}).
Proof.
  intros Hs Hdiff.
  unfold updateMonitoringState, bind, getSiteState, assignSiteState, ret,
    sendTelegramAlert, posted.
  rewrite Hs, Hdiff. cbn.
  rewrite (alter_known _ _ _ _ Hs).
  rewrite (alter_known _ _ _ (recordCheck r s)) by apply lookup_insert_eq.
  rewrite insert_insert_eq.
  by destruct enabled.
Qed.

Lemma statusChanged_Some (previous : option Status) (new prev : Status) :
  statusChanged previous new = Some prev <-> previous = Some prev /\ prev ≠ new.
Proof.
  unfold statusChanged. destruct previous as [p |].
  - destruct (decide (p = new)) as [-> | Hne].
    + rewrite bool_decide_eq_false_2 by (intros Hn; by apply Hn).
      split; [discriminate | by intros [[= ->] Hn]].
    + rewrite bool_decide_eq_true_2 by done.
      split; [by intros [= <-] | by intros [[= ->] _]].
  - split; [discriminate | by intros [? _]].
Qed.

Lemma statusChanged_None (previous : option Status) (new : Status) :
  statusChanged previous new = None <-> previous = None \/ previous = Some new.
Proof.
  unfold statusChanged. destruct previous as [p |].
  - destruct (decide (p = new)) as [-> | Hne].
    + rewrite bool_decide_eq_false_2 by (intros Hn; by apply Hn).
      split; [by right | done].
    + rewrite bool_decide_eq_true_2 by done.
      split; [discriminate | intros [? | [= ->]]; done].
  - split; [by left | done].
Qed.

(** X18: for a name that is not reserved and has no entry in
    [monitoringState], the update returns no change event and leaves the
    world as it is: no entry is created, no site is modified, nothing is
    posted. *)
Theorem update_of_untracked_name_is_noop (siteName : string) (r : CheckResult)
    (now : Z) (w : World) :
  siteName ∉ reservedNames ->
  monitoringState w !! siteName = None ->
  fst (updateMonitoringState enabled siteName r now w) = None /\
  snd (updateMonitoringState enabled siteName r now w) = w.
Proof.
  intros _ Hnone. by rewrite (update_unknown _ _ _ _ Hnone).
Qed.


Lemma update_known_counts (siteName : string) (r : CheckResult) (now : Z)
    (w : World) (s : SiteState) :
  monitoringState w !! siteName = Some s ->
  exists s',
    monitoringState (snd (updateMonitoringState enabled siteName r now w))
      !! siteName = Some s' /\
    lastStatus s' = Some (status r) /\
    changeCount s'
    = (changeCount s + transitions (lastStatus s) [status r])%N.
Proof.
  intros Hs.
  destruct (statusChanged (lastStatus s) (status r)) as [prev |] eqn:Hc.
  - rewrite (update_changed _ _ _ _ _ _ Hs Hc). cbn.
    apply statusChanged_Some in Hc as [-> Hne].
    eexists. rewrite lookup_insert_eq. repeat split. cbn.
    by rewrite bool_decide_eq_false_2.
  - rewrite (update_steady _ _ _ _ _ Hs Hc). cbn.
    eexists. rewrite lookup_insert_eq. repeat split. cbn.
    apply statusChanged_None in Hc as [-> | ->]; [lia |].
    rewrite bool_decide_eq_true_2 by done. lia.
Qed.

Lemma updateAll_counts (siteName : string) (probes : list (CheckResult * Z)) :
  forall (w : World) (s : SiteState),
    monitoringState w !! siteName = Some s ->
    exists s',
      monitoringState (snd (updateAll enabled siteName probes w)) !! siteName
      = Some s' /\
      changeCount s'
      = (changeCount s
         + transitions (lastStatus s) (map (fun p => status (fst p)) probes))%N.
Proof.
  induction probes as [| [r now] rest IH]; intros w s Hs.
  - exists s. cbn. split; [done | lia].
  - destruct (update_known_counts siteName r now w s Hs) as (s1 & Hs1 & Hl1 & Hc1).
    cbn [updateAll]. unfold bind at 1.
    destruct (updateMonitoringState enabled siteName r now w) as [ev w1].
    cbn [snd] in Hs1.
    destruct (IH w1 s1 Hs1) as (s' & Hs' & Hc').
    unfold bind, ret.
    destruct (updateAll enabled siteName rest w1) as [evs w2].
    cbn [snd] in *. exists s'. split; [done |].
    rewrite Hc', Hc1, Hl1. cbn. lia.
Qed.

(** C2: over any run of updates of one site, [changeCount] grows by the
    number of observations that differ from the known status just before
    them; a first observation adds nothing.  So a freshly seeded site that
    is seen UP, UP, DOWN, DOWN, UP ends with [changeCount] 2. *)
Theorem C2_changeCount_counts_transitions (siteName : string)
    (probes : list (CheckResult * Z)) (w : World) (s : SiteState) :
  monitoringState w !! siteName = Some s ->
  exists s',
    monitoringState (snd (updateAll enabled siteName probes w)) !! siteName
    = Some s' /\
    changeCount s'
    = (changeCount s
       + transitions (lastStatus s) (map (fun p => status (fst p)) probes))%N /\
    (lastStatus s = None -> changeCount s = 0%N ->
     map (fun p => status (fst p)) probes = [UP; UP; DOWN; DOWN; UP] ->
     changeCount s' = 2%N).
Proof.
  intros Hs.
  destruct (updateAll_counts siteName probes w s Hs) as (s' & Hs' & Hc').
  exists s'. repeat split; [done | done |].
  intros Hfirst Hzero Hrun. by rewrite Hc', Hfirst, Hzero, Hrun.
Qed.

Lemma initialize_cons (site : Site) (sites : list Site) (w : World) :
  initializeMonitoringState (site :: sites) w
  = initializeMonitoringState sites
      (match monitoringState w !! name site with
       | Some _ => w
       | None => {| monitoringState :=
                      <[name site := freshSiteState site]> (monitoringState w);
                    outbox := outbox w |}
       end).
Proof.
  unfold initializeMonitoringState. cbn [forEach].
  unfold bind at 1 2, getSiteState.
  by destruct (monitoringState w !! name site).
Qed.

Lemma initialize_keeps_known (sites : list Site) :
  forall (w : World) (n : string) (s : SiteState),
    monitoringState w !! n = Some s ->
    monitoringState (snd (initializeMonitoringState sites w)) !! n = Some s.
Proof.
  induction sites as [| site sites IH]; intros w n s Hs; [done |].
  rewrite initialize_cons. apply IH.
  destruct (monitoringState w !! name site) eqn:Hsite; [done |].
  cbn. rewrite lookup_insert_ne; [done | congruence].
Qed.

Lemma initialize_seeds (sites : list Site) :
  forall (w : World) (site : Site),
    site ∈ sites ->
    monitoringState w !! name site = None ->
    exists site', site' ∈ sites /\ name site' = name site /\
      monitoringState (snd (initializeMonitoringState sites w)) !! name site
      = Some (freshSiteState site').
Proof.
  induction sites as [| first sites IH]; intros w site Hin Hnew.
  - by apply elem_of_nil in Hin.
  - rewrite initialize_cons.
    destruct (decide (name first = name site)) as [Heq | Hne].
    + exists first. split; [by left |]. split; [done |].
      rewrite Heq, Hnew. apply initialize_keeps_known.
      cbn. by rewrite <- Heq, lookup_insert_eq.
    + apply elem_of_cons in Hin as [-> | Hin]; [done |].
      destruct (IH (match monitoringState w !! name first with
                    | Some _ => w
                    | None => {| monitoringState :=
                                   <[name first := freshSiteState first]>
                                     (monitoringState w);
                                 outbox := outbox w |}
                    end) site Hin) as (site' & Hin' & Hname & Hlook).
      * destruct (monitoringState w !! name first); [done |].
        cbn. by rewrite lookup_insert_ne.
      * exists site'. split; [by right | done].
Qed.

Lemma initialize_all_known (sites : list Site) :
  forall w : World,
    (forall site, site ∈ sites -> is_Some (monitoringState w !! name site)) ->
    initializeMonitoringState sites w = (tt, w).
Proof.
  induction sites as [| site sites IH]; intros w Hknown; [done |].
  rewrite initialize_cons.
  destruct (Hknown site) as [s Hs]; [by left |].
  rewrite Hs. apply IH. intros site' Hin. apply Hknown. by right.
Qed.

Lemma initialize_covers (sites : list Site) (w : World) (site : Site) :
  site ∈ sites ->
  is_Some (monitoringState (snd (initializeMonitoringState sites w)) !! name site).
Proof.
  intros Hin. destruct (monitoringState w !! name site) as [s |] eqn:Hs.
  - exists s. by apply initialize_keeps_known.
  - destruct (initialize_seeds sites w site Hin Hs) as (site' & _ & _ & Hl).
    by eexists.
Qed.

(** X17: initialising twice is the same as initialising once.  A site that
    is known before keeps its whole state, [changeCount] and [lastStatus]
    included, through both calls; a listed site that is not known yet and
    whose name is not reserved is seeded with no status and a zero count. *)
Theorem initialize_is_idempotent (sites : list Site) (w : World) :
  let w1 := snd (initializeMonitoringState sites w) in
  let w2 := snd (initializeMonitoringState sites w1) in
  w2 = w1 /\
  (forall n s, monitoringState w !! n = Some s ->
     monitoringState w1 !! n = Some s /\ monitoringState w2 !! n = Some s) /\
  (forall site, site ∈ sites -> name site ∉ reservedNames ->
     monitoringState w !! name site = None ->
     exists s', monitoringState w1 !! name site = Some s' /\
                lastStatus s' = None /\
                changeCount s' = 0%N /\
                lastChangedAt s' = None).
Proof.
  cbv zeta.
  assert (snd (initializeMonitoringState sites
                 (snd (initializeMonitoringState sites w)))
          = snd (initializeMonitoringState sites w)) as Hidem.
  { rewrite initialize_all_known; [done |].
    intros site Hin. by apply initialize_covers. }
  split; [done |]. split.
  - intros n s Hs. rewrite Hidem. split; by apply initialize_keeps_known.
  - intros site Hin _ Hnew.
    destruct (initialize_seeds sites w site Hin Hnew) as (site' & _ & _ & Hl).
    by exists (freshSiteState site').
Qed.

(** An update that returns a change event has changed the tracker. *)
Lemma change_event_changes_state (siteName : string) (r : CheckResult)
    (now : Z) (w : World) :
  is_Some (fst (updateMonitoringState enabled siteName r now w)) ->
  monitoringState (snd (updateMonitoringState enabled siteName r now w))
  ≠ monitoringState w.
Proof.
  destruct (monitoringState w !! siteName) as [s |] eqn:Hs.
  - destruct (statusChanged (lastStatus s) (status r)) as [prev |] eqn:Hc.
    + rewrite (update_changed _ _ _ _ _ _ Hs Hc). cbn. intros _ Heq.
      rewrite <- Heq, lookup_insert_eq in Hs.
      injection Hs as Hs. apply (f_equal changeCount) in Hs. cbn in Hs. lia.
    + rewrite (update_steady _ _ _ _ _ Hs Hc). cbn. by intros [? ?].
  - rewrite (update_unknown _ _ _ _ Hs). cbn. by intros [? ?].
Qed.

End Tracker_properties.

(** ** Promises *)

Lemma settleAll_spec {T A} (chain : T -> Tracker (Promise A))
    (Q : T -> Promise A -> Prop) (tasks : list T) (order : list nat) :
  (forall t w, Q t (fst (chain t w))) ->
  forall w,
    Forall (fun c => exists t, tasks !! fst c = Some t /\ Q t (snd c))
           (fst (settleAll chain tasks order w)) /\
    (forall i, i ∈ order -> (i < length tasks)%nat ->
               i ∈ map fst (fst (settleAll chain tasks order w))).
Proof.
  intros HQ. induction order as [| i rest IH]; intros w.
  - split; [constructor | intros i Hi; by apply elem_of_nil in Hi].
  - cbn [settleAll].
    destruct (tasks !! i) as [t |] eqn:Ht.
    + unfold bind, ret. pose proof (HQ t w) as Hq.
      destruct (chain t w) as [p w1]. specialize (IH w1).
      destruct (settleAll chain tasks rest w1) as [ps w2].
      cbn in *. destruct IH as [IHall IHin]. split.
      * constructor; [by exists t | done].
      * intros j Hj Hlt. apply elem_of_cons in Hj as [-> | Hj];
          [by left | right; by apply IHin].
    + destruct (IH w) as [IHall IHin]. split; [done |].
      intros j Hj Hlt. apply elem_of_cons in Hj as [-> | Hj]; [| by apply IHin].
      apply lookup_ge_None in Ht. lia.
Qed.

Lemma settleAll_pure {T A} (chain : T -> Tracker (Promise A))
    (tasks : list T) (order : list nat) :
  (forall t w, snd (chain t w) = w) ->
  forall w, snd (settleAll chain tasks order w) = w.
Proof.
  intros Hpure. induction order as [| i rest IH]; intros w; [done |].
  cbn [settleAll]. destruct (tasks !! i) as [t |]; [| apply IH].
  unfold bind, ret. pose proof (Hpure t w) as Hw.
  destruct (chain t w) as [p w1]. cbn in Hw. subst w1.
  specialize (IH w). by destruct (settleAll chain tasks rest w).
Qed.

Lemma mapM_lookup_all {A} (got : gmap nat A) (n : nat) :
  (forall i, (i < n)%nat -> is_Some (got !! i)) ->
  exists values,
    mapM (fun i => got !! i) (seq 0 n) = Some values /\
    length values = n /\
    forall i v, values !! i = Some v -> got !! i = Some v.
Proof.
  intros Hall.
  destruct (mapM_is_Some_2 (fun i => got !! i) (seq 0 n)) as [values Hv].
  { apply Forall_forall. intros i Hi. apply elem_of_seq in Hi. apply Hall. lia. }
  exists values. split; [done |].
  apply mapM_Some_1 in Hv. split.
  - apply Forall2_length in Hv. by rewrite length_seq in Hv.
  - intros i v Hi.
    destruct (Forall2_lookup_r _ _ _ _ _ Hv Hi) as (j & Hj & Hgot).
    apply lookup_seq in Hj as [-> _]. done.
Qed.

(** When every chain is fulfilled and every index below [n] has settled,
    [Promise.all] is fulfilled with one value per promise, each the value
    of the chain of its index. *)
Lemma promiseAllFrom_fulfilled {A} (P : nat -> A -> Prop) (n : nat)
    (chains : list (nat * Promise A)) :
  forall got : gmap nat A,
    Forall (fun c => exists v, snd c = Fulfilled v /\ P (fst c) v) chains ->
    (forall i v, got !! i = Some v -> P i v) ->
    (forall i, (i < n)%nat -> i ∈ map fst chains \/ is_Some (got !! i)) ->
    exists values,
      promiseAllFrom n chains got = Some (Fulfilled values) /\
      length values = n /\
      forall i v, values !! i = Some v -> P i v.
Proof.
  induction chains as [| [i p] rest IH]; intros got Hall Hgot Hcover.
  - destruct (mapM_lookup_all got n) as (values & Hv & Hlen & Hlook).
    { intros i Hi. destruct (Hcover i Hi) as [Hin | Hsome]; [| done].
      by apply elem_of_nil in Hin. }
    exists values. cbn. rewrite Hv. split; [done |]. split; [done |].
    intros i v Hi. apply Hgot. by apply Hlook.
  - apply Forall_cons in Hall as [(v & Hp & HP) Hall]. cbn in Hp, HP. subst p.
    cbn [promiseAllFrom]. apply IH; [done | |].
    + intros j u Hj. destruct (decide (i = j)) as [<- | Hne].
      * rewrite lookup_insert_eq in Hj. by injection Hj as <-.
      * rewrite lookup_insert_ne in Hj by done. by apply Hgot.
    + intros j Hj. destruct (decide (i = j)) as [<- | Hne].
      * right. rewrite lookup_insert_eq. by eexists.
      * rewrite lookup_insert_ne by done.
        destruct (Hcover j Hj) as [Hin | Hsome]; [| by right].
        cbn in Hin. apply elem_of_cons in Hin as [-> | Hin]; [done | by left].
Qed.

(** ** Monitoring cycle and manual check *)

Section Cycle_properties.

Variable enabled : bool.

Lemma monitorSite_value (t : Task) (w : World) :
  exists change,
    fst (monitorSite enabled t w) = Fulfilled (cycleResult t, change).
Proof.
  unfold monitorSite, cycleResult, then_, catch_, bind, ret.
  destruct (settled t) as [result | reason].
  - destruct (updateMonitoringState enabled (name (site t)) result
                (handledAt t) w) as [change w1].
    by exists change.
  - by exists None.
Qed.

Lemma checkOnly_value (t : Task) (w : World) :
  checkOnly t w
  = (match settled t with
     | Fulfilled result => Fulfilled {| r_name := name (site t);
                                        r_url := url (site t);
                                        r_check := result |}
     | Rejected reason => Rejected reason
     end, w).
Proof. unfold checkOnly, then_, bind, ret. by destruct (settled t). Qed.

Lemma count_up_down (results : list SiteResult) :
  (countStatus UP results + countStatus DOWN results)%nat = length results.
Proof.
  unfold countStatus. induction results as [| r results IH]; [done |].
  destruct (status (r_check r)) eqn:Hst.
  - rewrite (filter_cons_True (fun r => status (r_check r) = UP)) by done.
    rewrite (filter_cons_False (fun r => status (r_check r) = DOWN))
      by (rewrite Hst; discriminate).
    cbn. lia.
  - rewrite (filter_cons_False (fun r => status (r_check r) = UP))
      by (rewrite Hst; discriminate).
    rewrite (filter_cons_True (fun r => status (r_check r) = DOWN)) by done.
    cbn. lia.
Qed.

Lemma report_summary (tasks : list Task) (order : list nat) (timestamp : Z)
    (w : World) (report : Report) :
  fst (performAutomaticMonitoring enabled tasks order timestamp w)
  = Some (Fulfilled report) ->
  summary report = summarize (results report).
Proof.
  unfold performAutomaticMonitoring, bind, ret.
  destruct (settleAll (monitorSite enabled) tasks order w) as [chains w1]. cbn.
  destruct (promiseAll (length tasks) chains) as [[values | reason] |];
    [| discriminate | discriminate].
  by intros [= <-].
Qed.

(** The results of a cycle in which every probe settles. *)
Lemma cycle_results (tasks : list Task) (order : list nat) (timestamp : Z)
    (w : World) :
  (forall i, (i < length tasks)%nat -> i ∈ order) ->
  exists report,
    fst (performAutomaticMonitoring enabled tasks order timestamp w)
    = Some (Fulfilled report) /\
    results report = map cycleResult tasks.
Proof.
  intros Hcover. unfold performAutomaticMonitoring, bind, ret.
  destruct (settleAll_spec (monitorSite enabled)
              (fun t p => exists change, p = Fulfilled (cycleResult t, change))
              tasks order (monitorSite_value) w) as [Hall Hin].
  destruct (settleAll (monitorSite enabled) tasks order w) as [chains w1].
  cbn [fst] in *.
  destruct (promiseAllFrom_fulfilled
              (fun i v => exists t, tasks !! i = Some t /\ fst v = cycleResult t)
              (length tasks) chains ∅) as (values & Hv & Hlen & Hlook).
  - eapply Forall_impl; [exact Hall |].
    intros [i p] (t & Ht & change & ->). cbn in *.
    exists (cycleResult t, change). split; [done | by exists t].
  - intros i v Hi. by rewrite lookup_empty in Hi.
  - intros i Hi. left. apply Hin; [by apply Hcover | done].
  - unfold promiseAll. rewrite Hv. eexists. split; [done |]. cbn.
    apply list_eq. intros i. rewrite !list_lookup_fmap.
    destruct (values !! i) as [v |] eqn:Hvi.
    + destruct (Hlook i v Hvi) as (t & Ht & Hfst). rewrite Ht.
      change (Some (fst v) = Some (cycleResult t)). by rewrite Hfst.
    + apply lookup_ge_None in Hvi. rewrite Hlen in Hvi.
      apply lookup_ge_None in Hvi. by rewrite Hvi.
Qed.

(** C4 (as amended): in a cycle in which every probe settles, rejected or
    not, the cycle is fulfilled with a report; its total is the number of
    probes started; a fulfilled probe appears with its result, and a
    rejected probe appears as DOWN with the message of the rejection, the
    time of the handler, and neither [errorType] nor status code nor
    response time. *)
Theorem C4_rejected_probe_becomes_down (tasks : list Task) (order : list nat)
    (timestamp : Z) (w : World) :
  (forall i, (i < length tasks)%nat -> i ∈ order) ->
  exists report,
    fst (performAutomaticMonitoring enabled tasks order timestamp w)
    = Some (Fulfilled report) /\
    total (summary report) = length tasks /\
    length (results report) = length tasks /\
    (forall i t result,
       tasks !! i = Some t -> settled t = Fulfilled result ->
       results report !! i = Some {| r_name := name (site t);
                                     r_url := url (site t);
                                     r_check := result |}) /\
    (forall i t reason,
       tasks !! i = Some t -> settled t = Rejected reason ->
       results report !! i
       = Some {| r_name := name (site t);
                 r_url := url (site t);
                 r_check := {| status := DOWN;
                               statusCode := None;
                               responseTime := None;
                               checkedAt := handledAt t;
                               error := Some reason;
                               errorType := None |} |}).
Proof.
  intros Hcover.
  destruct (cycle_results tasks order timestamp w Hcover) as (report & Hrep & Hres).
  exists report. split; [done |].
  rewrite (report_summary _ _ _ _ _ Hrep). cbn. rewrite Hres, length_map.
  repeat split.
  - intros i t result Ht Hset.
    rewrite list_lookup_fmap, Ht. cbn. unfold cycleResult. by rewrite Hset.
  - intros i t reason Ht Hset.
    rewrite list_lookup_fmap, Ht. cbn. unfold cycleResult. by rewrite Hset.
Qed.

(** C7: the summary of the report of a completed cycle counts every result
    once: [total] is the number of results, [up] and [down] are the numbers
    of UP and of DOWN results, and [up + down = total]. *)
Theorem C7_up_plus_down_is_total (tasks : list Task) (order : list nat)
    (timestamp : Z) (w : World) (report : Report) :
  fst (performAutomaticMonitoring enabled tasks order timestamp w)
  = Some (Fulfilled report) ->
  (up (summary report) + down (summary report))%nat = total (summary report) /\
  total (summary report) = length (results report) /\
  up (summary report) = countStatus UP (results report) /\
  down (summary report) = countStatus DOWN (results report).
Proof.
  intros Hrep. rewrite (report_summary _ _ _ _ _ Hrep). cbn.
  split; [apply count_up_down | done].
Qed.

Lemma apiCheck_world (tasks : list Task) (order : list nat) (timestamp : Z)
    (w : World) :
  snd (apiCheck tasks order timestamp w) = w.
Proof.
  unfold apiCheck. case_bool_decide; [done |].
  unfold bind, ret.
  pose proof (settleAll_pure checkOnly tasks order
                (fun t w' => f_equal snd (checkOnly_value t w')) w) as Hw.
  by destruct (settleAll checkOnly tasks order w).
Qed.

Lemma settleAll_checkOnly_world (tasks : list Task) (order : list nat)
    (w w' : World) :
  fst (settleAll checkOnly tasks order w)
  = fst (settleAll checkOnly tasks order w').
Proof.
  revert w w'. induction order as [| i rest IH]; intros w w'; [done |].
  cbn [settleAll]. destruct (tasks !! i) as [t |]; [| apply IH].
  unfold bind, ret. rewrite !checkOnly_value.
  specialize (IH w w').
  destruct (settleAll checkOnly tasks rest w),
           (settleAll checkOnly tasks rest w'). cbn in *. by rewrite IH.
Qed.

(** C9: the handler of [GET /api/check] leaves the world as it found it:
    the state of every site ([lastStatus], [changeCount], [lastChangedAt]
    and the rest) is unchanged and no alert is posted; its answer does not
    depend on the tracker either.  No change event comes out of it: an
    update of a tracked site that returns one changes the tracker. *)
Theorem C9_manual_check_leaves_state (tasks : list Task) (order : list nat)
    (timestamp : Z) (w : World) :
  snd (apiCheck tasks order timestamp w) = w /\
  monitoringState (snd (apiCheck tasks order timestamp w)) = monitoringState w /\
  outbox (snd (apiCheck tasks order timestamp w)) = outbox w /\
  (forall w', fst (apiCheck tasks order timestamp w')
              = fst (apiCheck tasks order timestamp w)) /\
  (forall siteName r now,
     ownLookup w siteName ->
     is_Some (fst (updateMonitoringState enabled siteName r now w)) ->
     monitoringState (snd (updateMonitoringState enabled siteName r now w))
     ≠ monitoringState (snd (apiCheck tasks order timestamp w))).
Proof.
  rewrite apiCheck_world.
  split; [done |]. split; [done |]. split; [done |].
  split; [| intros siteName r now _; apply change_event_changes_state].
  intros w'. unfold apiCheck. case_bool_decide; [done |].
  unfold bind, ret.
  pose proof (settleAll_checkOnly_world tasks order w' w) as Heq.
  destruct (settleAll checkOnly tasks order w'),
           (settleAll checkOnly tasks order w). cbn in *. by rewrite Heq.
Qed.

(** C8 (as amended): the manual check is a path of its own, which agrees
    with the monitoring cycle on what it reports when there is at least one
    site and every probe settles with a result: the per-site results are
    the same and so is the summary.  Unlike the cycle it leaves the tracker
    alone. *)
Theorem C8_manual_check_agrees_when_fulfilled (tasks : list Task)
    (order : list nat) (timestamp : Z) (w : World) :
  tasks ≠ [] ->
  (forall t, t ∈ tasks -> exists result, settled t = Fulfilled result) ->
  (forall i, (i < length tasks)%nat -> i ∈ order) ->
  exists report,
    fst (performAutomaticMonitoring enabled tasks order timestamp w)
    = Some (Fulfilled report) /\
    fst (apiCheck tasks order timestamp w)
    = Some (Status200 timestamp (summary report) (results report)) /\
    snd (apiCheck tasks order timestamp w) = w.
Proof.
  intros Hsome Hfulfilled Hcover.
  destruct (cycle_results tasks order timestamp w Hcover) as (report & Hrep & Hres).
  exists report. split; [done |]. split; [| apply apiCheck_world].
  rewrite (report_summary _ _ _ _ _ Hrep), Hres.
  unfold apiCheck. rewrite bool_decide_eq_false_2
    by (intros Hlen; by apply nil_length_inv in Hlen).
  unfold bind, ret.
  destruct (settleAll_spec checkOnly
              (fun t p => p = match settled t with
                              | Fulfilled result =>
                                  Fulfilled {| r_name := name (site t);
                                               r_url := url (site t);
                                               r_check := result |}
                              | Rejected reason => Rejected reason
                              end)
              tasks order
              (fun t w' => f_equal fst (checkOnly_value t w')) w) as [Hall Hin].
  destruct (settleAll checkOnly tasks order w) as [chains w1]. cbn [fst] in *.
  destruct (promiseAllFrom_fulfilled
              (fun i v => exists t, tasks !! i = Some t /\ v = cycleResult t)
              (length tasks) chains ∅) as (values & Hv & Hlen & Hlook).
  - eapply Forall_impl; [exact Hall |].
    intros [i p] (t & Ht & ->). cbn in *.
    destruct (Hfulfilled t) as [result Hset];
      [by eapply list_elem_of_lookup_2 |].
    exists (cycleResult t). unfold cycleResult. rewrite Hset.
    split; [done |]. exists t. split; [done |]. by rewrite Hset.
  - intros i v Hi. by rewrite lookup_empty in Hi.
  - intros i Hi. left. apply Hin; [by apply Hcover | done].
  - unfold promiseAll. rewrite Hv.
    assert (values = map cycleResult tasks) as ->; [| done].
    apply list_eq. intros i. rewrite list_lookup_fmap.
    destruct (values !! i) as [v |] eqn:Hvi.
    + destruct (Hlook i v Hvi) as (t & Ht & ->). by rewrite Ht.
    + apply lookup_ge_None in Hvi. rewrite Hlen in Hvi.
      apply lookup_ge_None in Hvi. by rewrite Hvi.
Qed.

End Cycle_properties.

(** ** Concrete runs *)

(** The first cycle over the two sample sites: A is UP, B is DOWN. *)
Example first_cycle_report :
  exists report,
    fst (performAutomaticMonitoring true [probeA; probeB] [0%nat; 1%nat] 6000
           seededWorld)
    = Some (Fulfilled report) /\
    summary report = {| total := 2; up := 1; down := 1 |} /\
    stateChanges report = [].
Proof. eexists. split; [vm_compute; reflexivity | split; reflexivity]. Qed.

Example first_cycle_state :
  let w := snd (performAutomaticMonitoring true [probeA; probeB]
                  [0%nat; 1%nat] 6000 seededWorld) in
  lastStatus <$> monitoringState w !! "A" = Some (Some UP) /\
  lastStatus <$> monitoringState w !! "B" = Some (Some DOWN) /\
  lastError <$> monitoringState w !! "B"
  = Some (Some "Request timeout (5 seconds)").
Proof. vm_compute. repeat split. Qed.

(** The next cycle finds A DOWN: one change is reported and one alert is
    posted. *)
Example second_cycle_detects_change :
  let w := snd (performAutomaticMonitoring true [probeA] [0%nat] 6000
                  seededWorld) in
  exists report,
    fst (performAutomaticMonitoring true [probeA503] [0%nat] 306000 w)
    = Some (Fulfilled report) /\
    stateChanges report = [{| siteName := "A";
                              previousStatus := UP;
                              newStatus := DOWN;
                              changedAt := 300041;
                              ev_changeCount := 1 |}] /\
    length (outbox (snd (performAutomaticMonitoring true [probeA503] [0%nat]
                           306000 w))) = 1%nat.
Proof.
  cbv zeta. eexists. split; [vm_compute; reflexivity |].
  split; [reflexivity | vm_compute; reflexivity].
Qed.

(** C4, as stated, fails: the result that stands for a rejected probe has
    no [errorType] at all, so its error kind is not [Unknown]. *)
Lemma C4_rejected_probe_has_no_error_kind :
  exists report,
    fst (performAutomaticMonitoring true [probeA; probeBroken] [1%nat; 0%nat]
           6000 seededWorld)
    = Some (Fulfilled report) /\
    map (fun r => status (r_check r)) (results report) = [UP; DOWN] /\
    map (fun r => errorType (r_check r)) (results report) = [None; None] /\
    map (fun r => errorType (r_check r) ≫= errorKindOf) (results report)
    ≠ [None; Some Unknown].
Proof.
  eexists. split; [vm_compute; reflexivity |].
  split; [reflexivity |]. split; [reflexivity | discriminate].
Qed.

(** C8, as stated, fails: on the same probe outcomes the manual check and
    the monitoring cycle differ.  The cycle records the probe in the
    tracker and the manual check does not; with no site the cycle reports
    an empty summary and the manual check answers 400; with a rejected
    probe the cycle reports the site DOWN and the manual check answers
    500. *)
Lemma C8_manual_check_is_a_separate_path :
  (lastStatus <$>
     monitoringState (snd (performAutomaticMonitoring true [probeA] [0%nat]
                             6000 seededWorld)) !! "A"
   = Some (Some UP) /\
   lastStatus <$>
     monitoringState (snd (apiCheck [probeA] [0%nat] 6000 seededWorld)) !! "A"
   = Some None) /\
  ((exists report,
      fst (performAutomaticMonitoring true [] [] 6000 seededWorld)
      = Some (Fulfilled report) /\
      summary report = {| total := 0; up := 0; down := 0 |}) /\
   fst (apiCheck [] [] 6000 seededWorld) = Some Status400) /\
  ((exists report,
      fst (performAutomaticMonitoring true [probeBroken] [0%nat] 6000
             seededWorld)
      = Some (Fulfilled report) /\
      summary report = {| total := 1; up := 0; down := 1 |}) /\
   fst (apiCheck [probeBroken] [0%nat] 6000 seededWorld)
   = Some (Status500 "boom")).
Proof.
  split; [split; vm_compute; reflexivity |].
  split; (split; [eexists; split; [vm_compute; reflexivity | reflexivity]
                 | vm_compute; reflexivity]).
Qed.

(** *** Instances *)

Lemma update_of_untracked_name_is_noop_instance :
  fst (updateMonitoringState true "C" (checkSite 0 50 50 (Response 200)) 51
         seededWorld) = None /\
  snd (updateMonitoringState true "C" (checkSite 0 50 50 (Response 200)) 51
         seededWorld) = seededWorld.
Proof.
  apply (update_of_untracked_name_is_noop true "C"
           (checkSite 0 50 50 (Response 200)) 51 seededWorld).
  - apply (@bool_decide_unpack ("C" ∉ reservedNames) _). vm_compute. exact I.
  - vm_compute. reflexivity.
Defined.

Lemma C2_instance :
  exists s',
    monitoringState (snd (updateAll true "A" fiveProbes seededWorld)) !! "A"
    = Some s' /\
    changeCount s' = 2%N.
Proof.
  destruct (C2_changeCount_counts_transitions true "A" fiveProbes seededWorld
              (freshSiteState siteA)) as (s' & Hs' & _ & Htwo).
  - vm_compute. reflexivity.
  - exists s'. split; [exact Hs' |].
    apply Htwo; reflexivity.
Defined.


Lemma C4_instance :
  exists report,
    fst (performAutomaticMonitoring true [probeA; probeBroken] [1%nat; 0%nat]
           6000 seededWorld)
    = Some (Fulfilled report) /\
    total (summary report) = 2%nat.
Proof.
  destruct (C4_rejected_probe_becomes_down true [probeA; probeBroken]
              [1%nat; 0%nat] 6000 seededWorld)
    as (report & Hrep & Htotal & _).
  - intros i Hi. cbn in Hi.
    destruct i as [| [| i]]; [set_solver | set_solver | lia].
  - exists report. split; [exact Hrep | exact Htotal].
Defined.

Lemma C7_instance :
  exists report,
    fst (performAutomaticMonitoring true [probeA; probeB] [0%nat; 1%nat] 6000
           seededWorld)
    = Some (Fulfilled report) /\
    (up (summary report) + down (summary report))%nat = total (summary report).
Proof.
  eexists. split; [vm_compute; reflexivity |].
  refine (proj1 (C7_up_plus_down_is_total true [probeA; probeB]
                   [0%nat; 1%nat] 6000 seededWorld _ _)).
  vm_compute. reflexivity.
Defined.

Lemma C8_instance :
  exists report,
    fst (performAutomaticMonitoring true [probeA; probeB] [1%nat; 0%nat] 6000
           seededWorld)
    = Some (Fulfilled report) /\
    fst (apiCheck [probeA; probeB] [1%nat; 0%nat] 6000 seededWorld)
    = Some (Status200 6000 (summary report) (results report)) /\
    snd (apiCheck [probeA; probeB] [1%nat; 0%nat] 6000 seededWorld)
    = seededWorld.
Proof.
  apply (C8_manual_check_agrees_when_fulfilled true [probeA; probeB]
           [1%nat; 0%nat] 6000 seededWorld).
  - discriminate.
  - intros t Ht.
    apply elem_of_cons in Ht as [-> | Ht]; [by eexists |].
    apply elem_of_cons in Ht as [-> | Ht]; [by eexists |].
    by apply elem_of_nil in Ht.
  - intros i Hi. cbn in Hi.
    destruct i as [| [| i]]; [set_solver | set_solver | lia].
Defined.

Lemma initialize_is_idempotent_instance :
  let w := snd (updateAll true "A" fiveProbes seededWorld) in
  let w1 := snd (initializeMonitoringState [siteA; siteB] w) in
  (changeCount <$> monitoringState w1 !! "A" = Some 2%N /\
   lastStatus <$> monitoringState w1 !! "A" = Some (Some UP)) /\
  exists s', monitoringState seededWorld !! "B" = Some s' /\
             lastStatus s' = None /\
             changeCount s' = 0%N /\
             lastChangedAt s' = None.
Proof.
  cbv zeta. split.
  - destruct (proj1 (proj2 (initialize_is_idempotent [siteA; siteB]
                 (snd (updateAll true "A" fiveProbes seededWorld))))
              "A" (mkSiteState "A" "http://ok" (Some UP) (Some 1200050)
                     (Some 1200051) 2 (Some 204) None)) as [Hkept _].
    + vm_compute. reflexivity.
    + cbv zeta in Hkept. rewrite Hkept. split; reflexivity.
  - apply (proj2 (proj2 (initialize_is_idempotent [siteA; siteB] emptyWorld))
             siteB).
    + set_solver.
    + apply (@bool_decide_unpack (name siteB ∉ reservedNames) _).
      vm_compute. exact I.
    + vm_compute. reflexivity.
Defined.

(** * Further properties of the backend *)

(** ** Prober *)

Lemma classifyError_message_nonempty (e : AxiosError) :
  fst (classifyError e) ≠ "".
Proof.
  unfold classifyError.
  repeat match goal with
         | |- context [if bool_decide ?P then _ else _] =>
             destruct (bool_decide_reflect P)
         | |- context [if ?b then _ else _] => destruct b
         end; cbn; done.
Qed.

(** X1: a result of [checkSite] has either a status code or an error, never
    both and never neither; an error comes with its [errorType] and is never
    the empty string; and an UP result always stands for a received code
    between 200 and 399. *)
Theorem checkSite_code_or_error (startTime endTime stamp : Z)
    (o : AxiosOutcome) :
  let r := checkSite startTime endTime stamp o in
  (is_Some (statusCode r) <-> error r = None) /\
  (is_Some (error r) <-> is_Some (errorType r)) /\
  error r ≠ Some "" /\
  (status r = UP <->
   exists c, o = Response c /\ 200 <= c < 400 /\ statusCode r = Some c).
Proof.
  cbv zeta. destruct o as [c | e].
  - cbn. repeat split; try done; try (by intros [? ?]); try (by eexists).
    + destruct (200 <=? c) eqn:Hlo; destruct (c <? 400) eqn:Hhi;
        try discriminate. intros _. exists c. repeat split; lia.
    + intros (c' & [= <-] & Hc & _).
      destruct (200 <=? c) eqn:Hlo; destruct (c <? 400) eqn:Hhi; cbn;
        try done; lia.
  - pose proof (classifyError_message_nonempty e) as Hmsg.
    unfold checkSite. destruct (classifyError e) as [msg ty]. cbn in *.
    repeat split; try done; try (by intros [? ?]); try (by eexists).
    + congruence.
    + by intros (c & ? & _).
Qed.

(** ** State tracker *)

(** The three runs of [updateMonitoringState]: unknown name, same status,
    changed status. *)
Ltac update_cases enabled siteName r now w :=
  let s := fresh "s" in
  let Hs := fresh "Hs" in
  let prev := fresh "prev" in
  let Hc := fresh "Hc" in
  destruct (monitoringState w !! siteName) as [s |] eqn:Hs;
  [ destruct (statusChanged (lastStatus s) (status r)) as [prev |] eqn:Hc;
    [ rewrite (update_changed enabled siteName r now w s prev Hs Hc)
    | rewrite (update_steady enabled siteName r now w s Hs Hc) ]
  | rewrite (update_unknown enabled siteName r now w Hs) ].

Lemma update_frame (enabled : bool) (siteName : string)
    (r : CheckResult) (now : Z) (w : World) :
  let w' := snd (updateMonitoringState enabled siteName r now w) in
  (forall other, other ≠ siteName ->
     monitoringState w' !! other = monitoringState w !! other) /\
  dom (monitoringState w') = dom (monitoringState w) /\
  (forall s, monitoringState w !! siteName = Some s ->
     exists s', monitoringState w' !! siteName = Some s' /\
       st_name s' = st_name s /\ st_url s' = st_url s /\
       lastStatus s' = Some (status r) /\
       lastCheckedAt s' = Some (checkedAt r) /\
       lastStatusCode s' = statusCode r /\
       lastError s' = error r /\
       (changeCount s <= changeCount s')%N) /\
  (exists new : list TelegramAlert,
     outbox w' = (outbox w ++ new)%list /\
     (length new <= 1)%nat /\
     (enabled = false -> new = [])).
Proof.
  cbv zeta. update_cases enabled siteName r now w; cbn [snd monitoringState outbox].
  - split; [intros other Hne; by rewrite lookup_insert_ne |].
    split; [apply dom_insert_lookup_L; by eexists |].
    split.
    + intros s0 [= <-]. eexists. rewrite lookup_insert_eq.
      split; [done |]. cbn. repeat split. lia.
    + unfold posted. destruct enabled.
      * eexists [_]. split; [reflexivity |]. split; [cbn; lia | discriminate].
      * exists []. rewrite app_nil_r. split; [done |]. split; [cbn; lia | done].
  - split; [intros other Hne; by rewrite lookup_insert_ne |].
    split; [apply dom_insert_lookup_L; by eexists |].
    split.
    + intros s0 [= <-]. eexists. rewrite lookup_insert_eq.
      split; [done |]. cbn. repeat split. lia.
    + exists []. rewrite app_nil_r. split; [done |]. split; [cbn; lia | done].
  - split; [done |]. split; [done |]. split; [by intros s |].
    exists []. rewrite app_nil_r. split; [done |]. split; [cbn; lia | done].
Qed.

(** X2: an update touches one site only.  Every other entry of the tracker
    is left as it is and no name is added or removed; the updated site keeps
    its name and url, takes status, check time, status code and error from
    the result, and its count does not go down; at most one alert is posted,
    and none when alerts are disabled. *)
Theorem update_touches_one_site (enabled : bool) (siteName : string)
    (r : CheckResult) (now : Z) (w : World) :
  let w' := snd (updateMonitoringState enabled siteName r now w) in
  (forall other, other ≠ siteName ->
     monitoringState w' !! other = monitoringState w !! other) /\
  dom (monitoringState w') = dom (monitoringState w) /\
  (forall s, monitoringState w !! siteName = Some s ->
     exists s', monitoringState w' !! siteName = Some s' /\
       st_name s' = st_name s /\ st_url s' = st_url s /\
       lastStatus s' = Some (status r) /\
       lastCheckedAt s' = Some (checkedAt r) /\
       lastStatusCode s' = statusCode r /\
       lastError s' = error r /\
       (changeCount s <= changeCount s')%N) /\
  (exists new : list TelegramAlert,
     outbox w' = (outbox w ++ new)%list /\
     (length new <= 1)%nat /\
     (enabled = false -> new = [])).
Proof. apply update_frame. Qed.

Lemma initialize_outbox (sites : list Site) :
  forall w, outbox (snd (initializeMonitoringState sites w)) = outbox w.
Proof.
  induction sites as [| site sites IH]; intros w; [done |].
  rewrite initialize_cons, IH. by destruct (monitoringState w !! name site).
Qed.

Lemma initialize_lookup_eq (sites : list Site) (w : World) (n : string) :
  monitoringState (snd (initializeMonitoringState sites w)) !! n
  = match monitoringState w !! n with
    | Some s => Some s
    | None => freshSiteState <$> head (filter (fun site => name site = n) sites)
    end /\
  outbox (snd (initializeMonitoringState sites w)) = outbox w.
Proof.
  split; [| apply initialize_outbox].
  revert w. induction sites as [| site sites IH]; intros w.
  - cbn. by destruct (monitoringState w !! n).
  - rewrite initialize_cons, IH.
    destruct (decide (name site = n)) as [<- | Hne].
    + rewrite filter_cons_True by done.
      destruct (monitoringState w !! name site) as [s |] eqn:Hs.
      * by rewrite Hs.
      * cbn. by rewrite lookup_insert_eq.
    + rewrite filter_cons_False by done.
      destruct (monitoringState w !! name site) as [s |] eqn:Hs; [done |].
      cbn. by rewrite lookup_insert_ne.
Qed.

(** X3: what the tracker holds after initialisation, under a name that is
    tracked or not reserved.  A name that was tracked keeps its entry; a
    name that was not is seeded from the first listed site of that name
    (later entries of the same name are ignored), and stays untracked when
    no listed site has it.  Nothing is posted. *)
Theorem initialize_lookup (sites : list Site) (w : World) (n : string) :
  ownLookup w n ->
  monitoringState (snd (initializeMonitoringState sites w)) !! n
  = match monitoringState w !! n with
    | Some s => Some s
    | None => freshSiteState <$> head (filter (fun site => name site = n) sites)
    end /\
  outbox (snd (initializeMonitoringState sites w)) = outbox w.
Proof. intros _. apply initialize_lookup_eq. Qed.

Lemma siteStateOk_fresh (site : Site) :
  siteStateOk (name site) (freshSiteState site).
Proof. repeat split. Qed.

Lemma update_keeps_ok (enabled : bool) (siteName : string) (r : CheckResult)
    (now : Z) (w : World) :
  trackerOk w -> trackerOk (snd (updateMonitoringState enabled siteName r now w)).
Proof.
  intros Hok. update_cases enabled siteName r now w; [| | done].
  - intros n s' Hn. cbn in Hn.
    destruct (decide (siteName = n)) as [<- | Hne];
      [| rewrite lookup_insert_ne in Hn by done; by apply Hok].
    rewrite lookup_insert_eq in Hn. injection Hn as <-.
    destruct (Hok siteName s Hs) as (Hname & _ & _).
    split; [done |]. split; [discriminate |]. cbn. split; [lia | discriminate].
  - intros n s' Hn. cbn in Hn.
    destruct (decide (siteName = n)) as [<- | Hne];
      [| rewrite lookup_insert_ne in Hn by done; by apply Hok].
    rewrite lookup_insert_eq in Hn. injection Hn as <-.
    destruct (Hok siteName s Hs) as (Hname & _ & Hcount).
    split; [done |]. split; [discriminate | done].
Qed.

Lemma initialize_keeps_ok (sites : list Site) (w : World) :
  trackerOk w -> trackerOk (snd (initializeMonitoringState sites w)).
Proof.
  intros Hok n s Hn.
  rewrite (proj1 (initialize_lookup_eq sites w n)) in Hn.
  destruct (monitoringState w !! n) as [s0 |] eqn:Hs0.
  - injection Hn as <-. by apply Hok.
  - destruct (head (filter (fun site => name site = n) sites)) as [site |] eqn:Hh;
      [| done].
    injection Hn as <-. apply head_Some_elem_of in Hh.
    apply list_elem_of_filter in Hh as [<- _]. apply siteStateOk_fresh.
Qed.

(** A property of the world that every chain keeps is kept by a run of the
    chains. *)
Lemma settleAll_invariant {T A} (chain : T -> Tracker (Promise A))
    (P : World -> Prop) (tasks : list T) (order : list nat) :
  (forall t w, P w -> P (snd (chain t w))) ->
  forall w, P w -> P (snd (settleAll chain tasks order w)).
Proof.
  intros Hstep. induction order as [| i rest IH]; intros w Hw; [done |].
  cbn [settleAll]. destruct (tasks !! i) as [t |]; [| by apply IH].
  unfold bind, ret. specialize (Hstep t w Hw).
  destruct (chain t w) as [p w1]. specialize (IH w1 Hstep).
  by destruct (settleAll chain tasks rest w1).
Qed.

Lemma monitorSite_world (enabled : bool) (t : Task) (w : World) :
  snd (monitorSite enabled t w)
  = match settled t with
    | Fulfilled result =>
        snd (updateMonitoringState enabled (name (site t)) result
               (handledAt t) w)
    | Rejected _ => w
    end.
Proof.
  unfold monitorSite, then_, catch_, bind, ret.
  destruct (settled t) as [result | reason]; [| done].
  by destruct (updateMonitoringState enabled (name (site t)) result
                 (handledAt t) w).
Qed.

Lemma cycle_world (enabled : bool) (tasks : list Task) (order : list nat)
    (timestamp : Z) (w : World) :
  snd (performAutomaticMonitoring enabled tasks order timestamp w)
  = snd (settleAll (monitorSite enabled) tasks order w).
Proof.
  unfold performAutomaticMonitoring, bind, ret.
  by destruct (settleAll (monitorSite enabled) tasks order w).
Qed.

Lemma setup_world (enabled : bool) (sites : list Site) (tasks : list Task)
    (order : list nat) (timestamp : Z) (w : World) :
  setupAutomaticMonitoring enabled sites tasks order timestamp w
  = performAutomaticMonitoring enabled tasks order timestamp
      (snd (initializeMonitoringState sites w)).
Proof.
  unfold setupAutomaticMonitoring, bind.
  by destruct (initializeMonitoringState sites w).
Qed.

(** X4: the tracker stays well formed.  It is so when the process starts
    with an empty tracker, and initialisation, an update, a monitoring
    cycle, the manual check and start-up all keep it so: every entry is
    filed under its own name, a site never checked has no check time, code,
    error or change, and a change time is recorded exactly when the count
    is not zero. *)
Theorem tracker_stays_well_formed (enabled : bool) :
  (forall sent, trackerOk {| monitoringState := ∅; outbox := sent |}) /\
  (forall w, trackerOk w ->
     (forall sites, trackerOk (snd (initializeMonitoringState sites w))) /\
     (forall siteName r now,
        trackerOk (snd (updateMonitoringState enabled siteName r now w))) /\
     (forall tasks order timestamp,
        trackerOk (snd (performAutomaticMonitoring enabled tasks order
                          timestamp w))) /\
     (forall tasks order timestamp,
        trackerOk (snd (apiCheck tasks order timestamp w))) /\
     (forall sites tasks order timestamp,
        trackerOk (snd (setupAutomaticMonitoring enabled sites tasks order
                          timestamp w)))).
Proof.
  split; [intros sent n s Hn; cbn in Hn; by rewrite lookup_empty in Hn |].
  intros w Hok.
  assert (forall w0 tasks order timestamp, trackerOk w0 ->
            trackerOk (snd (performAutomaticMonitoring enabled tasks order
                              timestamp w0))) as Hcycle.
  { intros w0 tasks order timestamp Hok0. rewrite cycle_world.
    apply settleAll_invariant; [| done].
    intros t w1 Hw1. rewrite monitorSite_world.
    destruct (settled t); [by apply update_keeps_ok | done]. }
  split; [intros sites; by apply initialize_keeps_ok |].
  split; [intros siteName r now; by apply update_keeps_ok |].
  split; [intros tasks order timestamp; by apply Hcycle |].
  split; [intros tasks order timestamp; by rewrite apiCheck_world |].
  intros sites tasks order timestamp. rewrite setup_world.
  apply Hcycle. by apply initialize_keeps_ok.
Qed.

(** ** Monitoring cycle *)

Lemma trackerExtends_refl (w : World) : trackerExtends w w.
Proof.
  split; [done |]. split; [| done].
  intros n s Hs. exists s. repeat split; [done | lia | done].
Qed.

Lemma trackerExtends_trans (w1 w2 w3 : World) :
  trackerExtends w1 w2 -> trackerExtends w2 w3 -> trackerExtends w1 w3.
Proof.
  intros (Hd12 & Hs12 & Ho12) (Hd23 & Hs23 & Ho23).
  split; [congruence |]. split; [| by etrans].
  intros n s Hs.
  destruct (Hs12 n s Hs) as (s2 & Hs2 & Hn2 & Hu2 & Hc2 & Hl2).
  destruct (Hs23 n s2 Hs2) as (s3 & Hs3 & Hn3 & Hu3 & Hc3 & Hl3).
  exists s3. repeat split; [done | congruence | congruence | lia | auto].
Qed.

Lemma update_extends (enabled : bool) (siteName : string) (r : CheckResult)
    (now : Z) (w : World) :
  trackerExtends w (snd (updateMonitoringState enabled siteName r now w)).
Proof.
  destruct (update_frame enabled siteName r now w)
    as (Hother & Hdom & Hsite & new & Hout & _).
  split; [done |]. split; [| rewrite Hout; by apply prefix_app_r].
  intros n s Hs. destruct (decide (n = siteName)) as [-> | Hne].
  - destruct (Hsite s Hs) as (s' & Hs' & Hn & Hu & Hl & _ & _ & _ & Hc).
    exists s'. repeat split; [done | done | done | done |].
    intros _. rewrite Hl. by eexists.
  - exists s. rewrite Hother by done. repeat split; [done | lia | done].
Qed.

Lemma cycle_extends (enabled : bool) (tasks : list Task)
    (order : list nat) (timestamp : Z) (w : World) :
  let w' := snd (performAutomaticMonitoring enabled tasks order timestamp w) in
  trackerExtends w w' /\
  (forall n t1 t2,
     fst (apiSiteStatus n t1 w') = SiteStatus404 n <->
     fst (apiSiteStatus n t2 w) = SiteStatus404 n).
Proof.
  cbv zeta. rewrite cycle_world.
  assert (trackerExtends w (snd (settleAll (monitorSite enabled) tasks order w)))
    as Hext.
  { apply (settleAll_invariant (monitorSite enabled) (trackerExtends w));
      [| apply trackerExtends_refl].
    intros t w1 Hw1. rewrite monitorSite_world.
    destruct (settled t); [| done].
    eapply trackerExtends_trans; [exact Hw1 | apply update_extends]. }
  split; [done |]. intros n t1 t2.
  destruct Hext as (Hdom & _ & _).
  unfold apiSiteStatus, bind, getSiteState, ret. cbn.
  pose proof (not_elem_of_dom (monitoringState w) n) as Hw.
  pose proof (not_elem_of_dom
                (monitoringState
                   (snd (settleAll (monitorSite enabled) tasks order w))) n)
    as Hw'.
  rewrite Hdom in Hw'.
  destruct (monitoringState w !! n) as [s |] eqn:Hs;
    destruct (monitoringState
                (snd (settleAll (monitorSite enabled) tasks order w)) !! n)
      as [s' |] eqn:Hs'; try done.
  - assert (n ∉ dom (monitoringState w)) as Hn by by apply Hw'.
    apply Hw in Hn. discriminate.
  - assert (n ∉ dom (monitoringState w)) as Hn by by apply Hw.
    apply Hw' in Hn. discriminate.
Qed.

(** X5: a monitoring cycle neither adds nor removes a tracked name, whatever
    sites it probes: a site that is not tracked when the cycle starts is
    probed and reported but stays unknown to the status endpoints, which
    answer 404 for a name that is tracked or not reserved after the cycle
    exactly when they did before.  A
    tracked site keeps its name and url, its count does not go down, a
    known status stays known, and alerts already posted stay posted. *)
Theorem cycle_keeps_tracked_names (enabled : bool) (tasks : list Task)
    (order : list nat) (timestamp : Z) (w : World) :
  let w' := snd (performAutomaticMonitoring enabled tasks order timestamp w) in
  trackerExtends w w' /\
  (forall n t1 t2,
     ownLookup w n ->
     (fst (apiSiteStatus n t1 w') = SiteStatus404 n <->
      fst (apiSiteStatus n t2 w) = SiteStatus404 n)).
Proof.
  destruct (cycle_extends enabled tasks order timestamp w) as [Hext H404].
  split; [exact Hext |]. intros n t1 t2 _. apply H404.
Qed.

Lemma monitorSite_alerts (enabled : bool) (t : Task) (w : World) :
  exists change (new : list TelegramAlert),
    fst (monitorSite enabled t w) = Fulfilled (cycleResult t, change) /\
    outbox (snd (monitorSite enabled t w)) = (outbox w ++ new)%list /\
    (enabled = true ->
     map alertKey new = map eventKey (option_list change)) /\
    (enabled = false -> new = []).
Proof.
  unfold monitorSite, cycleResult, then_, catch_, bind, ret.
  destruct (settled t) as [result | reason].
  - update_cases enabled (name (site t)) result (handledAt t) w; cbn.
    + eexists _, (if enabled then [_] else []). split; [reflexivity |].
      unfold posted. destruct enabled; cbn.
      * split; [reflexivity |]. split; [done | discriminate].
      * rewrite app_nil_r. split; [done |]. split; [discriminate | done].
    + exists None, []. rewrite app_nil_r. by repeat split.
    + exists None, []. rewrite app_nil_r. by repeat split.
  - exists None, []. cbn. rewrite app_nil_r. by repeat split.
Qed.

Lemma settleAll_alerts (enabled : bool) (tasks : list Task) (order : list nat) :
  forall w,
    exists new : list TelegramAlert,
      outbox (snd (settleAll (monitorSite enabled) tasks order w))
      = (outbox w ++ new)%list /\
      (enabled = true ->
       map alertKey new
       = map eventKey
           (pushedChanges (fst (settleAll (monitorSite enabled) tasks order w)))) /\
      (enabled = false -> new = []).
Proof.
  induction order as [| i rest IH]; intros w.
  - exists []. cbn. rewrite app_nil_r. by repeat split.
  - cbn [settleAll]. destruct (tasks !! i) as [t |]; [| apply IH].
    unfold bind, ret.
    destruct (monitorSite_alerts enabled t w)
      as (change & new1 & Hp & Hout1 & Hon1 & Hoff1).
    destruct (monitorSite enabled t w) as [p w1]. cbn [fst snd] in *.
    destruct (IH w1) as (new2 & Hout2 & Hon2 & Hoff2).
    destruct (settleAll (monitorSite enabled) tasks rest w1) as [ps w2].
    cbn [fst snd] in *. exists (new1 ++ new2)%list.
    split; [by rewrite Hout2, Hout1, app_assoc |]. split.
    + intros Hen. rewrite map_app, Hon1, Hon2 by done. subst p.
      unfold pushedChanges. cbn. by destruct change.
    + intros Hen. by rewrite Hoff1, Hoff2.
Qed.

Lemma report_changes (enabled : bool) (tasks : list Task) (order : list nat)
    (timestamp : Z) (w : World) (report : Report) :
  fst (performAutomaticMonitoring enabled tasks order timestamp w)
  = Some (Fulfilled report) ->
  stateChanges report
  = pushedChanges (fst (settleAll (monitorSite enabled) tasks order w)).
Proof.
  unfold performAutomaticMonitoring, bind, ret.
  destruct (settleAll (monitorSite enabled) tasks order w) as [chains w1]. cbn.
  destruct (promiseAll (length tasks) chains) as [[values | reason] |];
    [| discriminate | discriminate].
  by intros [= <-].
Qed.

(** X6: a cycle posts one Telegram alert per change it reports, in the same
    order and about the same site and statuses, after the alerts that were
    there; with alerts disabled it posts nothing. *)
Theorem cycle_posts_one_alert_per_change (enabled : bool) (tasks : list Task)
    (order : list nat) (timestamp : Z) (w : World) (report : Report) :
  fst (performAutomaticMonitoring enabled tasks order timestamp w)
  = Some (Fulfilled report) ->
  exists new : list TelegramAlert,
    outbox (snd (performAutomaticMonitoring enabled tasks order timestamp w))
    = (outbox w ++ new)%list /\
    (enabled = true ->
     map alertKey new = map eventKey (stateChanges report)) /\
    (enabled = false -> new = []).
Proof.
  intros Hrep. rewrite (report_changes _ _ _ _ _ _ Hrep), cycle_world.
  apply settleAll_alerts.
Qed.

Lemma monitorSite_other (enabled : bool) (t : Task) (w : World) (n : string) :
  n ≠ name (site t) ->
  monitoringState (snd (monitorSite enabled t w)) !! n = monitoringState w !! n.
Proof.
  intros Hne. rewrite monitorSite_world. destruct (settled t); [| done].
  by apply update_frame.
Qed.

Lemma distinct_names (tasks : list Task) (i j : nat) (ti tj : Task) :
  NoDup (map (fun t => name (site t)) tasks) ->
  tasks !! i = Some ti -> tasks !! j = Some tj -> i ≠ j ->
  name (site ti) ≠ name (site tj).
Proof.
  intros Hnd Hi Hj Hij Heq. apply Hij.
  apply (NoDup_lookup _ i j (name (site ti)) Hnd).
  - change (map ?f ?l) with (f <$> l). by rewrite list_lookup_fmap, Hi.
  - change (map ?f ?l) with (f <$> l). by rewrite list_lookup_fmap, Hj, Heq.
Qed.

Lemma monitorSite_first_observation (enabled : bool) (t : Task) (w : World) :
  (forall s, monitoringState w !! name (site t) = Some s -> lastStatus s = None) ->
  fst (monitorSite enabled t w) = Fulfilled (cycleResult t, None) /\
  outbox (snd (monitorSite enabled t w)) = outbox w.
Proof.
  intros Hfirst. unfold monitorSite, cycleResult, then_, catch_, bind, ret.
  destruct (settled t) as [result | reason]; [| done].
  update_cases enabled (name (site t)) result (handledAt t) w; [| done | done].
  apply statusChanged_Some in Hc as [Hprev _].
  by rewrite (Hfirst s eq_refl) in Hprev.
Qed.

Lemma settleAll_first_observations (enabled : bool) (tasks : list Task)
    (order : list nat) :
  NoDup (map (fun t => name (site t)) tasks) ->
  forall w,
    NoDup order ->
    (forall j t s, j ∈ order -> tasks !! j = Some t ->
       monitoringState w !! name (site t) = Some s -> lastStatus s = None) ->
    pushedChanges (fst (settleAll (monitorSite enabled) tasks order w)) = [] /\
    outbox (snd (settleAll (monitorSite enabled) tasks order w)) = outbox w.
Proof.
  intros Hnames. induction order as [| i rest IH]; intros w Hnd Hfirst; [done |].
  apply NoDup_cons in Hnd as [Hi Hnd].
  cbn [settleAll]. destruct (tasks !! i) as [t |] eqn:Ht.
  - unfold bind, ret.
    destruct (monitorSite_first_observation enabled t w) as [Hp Hout].
    { intros s Hs. eapply (Hfirst i t s); [by left | done | done]. }
    pose proof (monitorSite_other enabled t w) as Hother.
    destruct (monitorSite enabled t w) as [p w1]. cbn [fst snd] in *.
    destruct (IH w1 Hnd) as [Hch Hout2].
    { intros j tj s Hj Htj Hs. rewrite Hother in Hs.
      - eapply (Hfirst j tj s); [by right | done | done].
      - eapply (distinct_names tasks j i); [done | done | done |].
        intros ->. done. }
    destruct (settleAll (monitorSite enabled) tasks rest w1) as [ps w2].
    cbn [fst snd] in *. split; [| congruence].
    subst p. unfold pushedChanges in *. cbn. done.
  - apply IH; [done |]. intros j tj s Hj. apply Hfirst. by right.
Qed.

Lemma first_observation_quiet (enabled : bool) (tasks : list Task)
    (order : list nat) (timestamp : Z) (w : World) (report : Report) :
  NoDup (map (fun t => name (site t)) tasks) ->
  NoDup order ->
  (forall t s, t ∈ tasks -> monitoringState w !! name (site t) = Some s ->
     lastStatus s = None) ->
  fst (performAutomaticMonitoring enabled tasks order timestamp w)
  = Some (Fulfilled report) ->
  stateChanges report = [] /\
  outbox (snd (performAutomaticMonitoring enabled tasks order timestamp w))
  = outbox w.
Proof.
  intros Hnames Hnd Hfirst Hrep.
  rewrite (report_changes _ _ _ _ _ _ Hrep), cycle_world.
  apply settleAll_first_observations; [done | done |].
  intros j t s _ Ht. apply Hfirst. by eapply list_elem_of_lookup_2.
Qed.

(** X7: a cycle in which every probed site is seen for the first time (it
    is untracked and its name is not reserved, or it is tracked with no
    status yet) reports no change and posts no alert, provided the probed
    sites have distinct names and each probe settles at most once. *)
Theorem first_observation_is_no_change (enabled : bool) (tasks : list Task)
    (order : list nat) (timestamp : Z) (w : World) (report : Report) :
  NoDup (map (fun t => name (site t)) tasks) ->
  NoDup order ->
  (forall t, t ∈ tasks -> ownLookup w (name (site t))) ->
  (forall t s, t ∈ tasks -> monitoringState w !! name (site t) = Some s ->
     lastStatus s = None) ->
  fst (performAutomaticMonitoring enabled tasks order timestamp w)
  = Some (Fulfilled report) ->
  stateChanges report = [] /\
  outbox (snd (performAutomaticMonitoring enabled tasks order timestamp w))
  = outbox w.
Proof.
  intros Hnames Hnd _. by apply first_observation_quiet.
Qed.

(** With two entries of the same name the first cycle can report a change:
    the second probe of the name is compared with the first. *)
Example duplicate_name_changes_at_once :
  exists report,
    fst (performAutomaticMonitoring true [probeA; probeA503]
           [0%nat; 1%nat] 6000 seededWorld)
    = Some (Fulfilled report) /\
    map eventKey (stateChanges report) = [("A", UP, DOWN)].
Proof. eexists. split; [vm_compute; reflexivity | reflexivity]. Qed.

Lemma settleAll_cons_world {T A} (chain : T -> Tracker (Promise A))
    (tasks : list T) (i : nat) (rest : list nat) (t : T) (w : World) :
  tasks !! i = Some t ->
  snd (settleAll chain tasks (i :: rest) w)
  = snd (settleAll chain tasks rest (snd (chain t w))).
Proof.
  intros Ht. cbn [settleAll]. rewrite Ht. unfold bind, ret.
  destruct (chain t w) as [p w1]. cbn.
  by destruct (settleAll chain tasks rest w1).
Qed.

Lemma settleAll_app_world {T A} (chain : T -> Tracker (Promise A))
    (tasks : list T) (l1 l2 : list nat) :
  forall w,
    snd (settleAll chain tasks (l1 ++ l2) w)
    = snd (settleAll chain tasks l2 (snd (settleAll chain tasks l1 w))).
Proof.
  induction l1 as [| i l1 IH]; intros w; [done |].
  destruct (tasks !! i) as [t |] eqn:Ht.
  - rewrite <- app_comm_cons, !(settleAll_cons_world _ _ _ _ t) by done.
    apply IH.
  - rewrite <- app_comm_cons. cbn [settleAll]. rewrite Ht. apply IH.
Qed.

Lemma settleAll_untouched (enabled : bool) (tasks : list Task)
    (order : list nat) (n : string) :
  forall w,
    (forall j t, j ∈ order -> tasks !! j = Some t ->
       name (site t) ≠ n \/ exists reason, settled t = Rejected reason) ->
    monitoringState (snd (settleAll (monitorSite enabled) tasks order w)) !! n
    = monitoringState w !! n.
Proof.
  induction order as [| i rest IH]; intros w Hskip; [done |].
  destruct (tasks !! i) as [t |] eqn:Ht.
  - rewrite (settleAll_cons_world _ _ _ _ t) by done.
    rewrite IH by (intros j tj Hj; apply Hskip; by right).
    destruct (Hskip i t) as [Hne | [reason Hrej]]; [by left | done | |].
    + by apply monitorSite_other.
    + by rewrite monitorSite_world, Hrej.
  - cbn [settleAll]. rewrite Ht. apply IH.
    intros j tj Hj. apply Hskip. by right.
Qed.

(** X8: after a cycle over sites with distinct names, in which each probe
    settles at most once, the tracker shows for every tracked site whose
    probe was fulfilled the outcome of that probe: status, check time,
    status code and error are the probe's, and the count has advanced by
    one exactly if the status differs from the known one.  A site whose
    probe was rejected keeps the state it had, though the report of the
    cycle lists it as DOWN, and so does a site whose probe has not settled. *)
Theorem cycle_records_each_probe (enabled : bool) (tasks : list Task)
    (order : list nat) (timestamp : Z) (w : World) (i : nat) (t : Task) :
  NoDup (map (fun t => name (site t)) tasks) ->
  NoDup order ->
  tasks !! i = Some t ->
  let w' := snd (performAutomaticMonitoring enabled tasks order timestamp w) in
  (forall r s,
     i ∈ order -> settled t = Fulfilled r ->
     monitoringState w !! name (site t) = Some s ->
     exists s', monitoringState w' !! name (site t) = Some s' /\
       lastStatus s' = Some (status r) /\
       lastCheckedAt s' = Some (checkedAt r) /\
       lastStatusCode s' = statusCode r /\
       lastError s' = error r /\
       changeCount s'
       = (changeCount s + transitions (lastStatus s) [status r])%N) /\
  ((i ∉ order \/ exists reason, settled t = Rejected reason) ->
   monitoringState w' !! name (site t) = monitoringState w !! name (site t)).
Proof.
  intros Hnames Hnd Ht. cbv zeta. rewrite cycle_world.
  assert (forall l : list nat, i ∉ l ->
            forall j tj, j ∈ l -> tasks !! j = Some tj ->
              name (site tj) ≠ name (site t)
              \/ exists reason, settled tj = Rejected reason) as Hothers.
  { intros l Hl j tj Hj Htj. left.
    eapply (distinct_names tasks j i); [done | done | done |].
    intros ->. done. }
  split.
  - intros r s Hin Hful Hs.
    apply list_elem_of_split in Hin as (l1 & l2 & ->).
    apply NoDup_app in Hnd as (_ & Hl1 & Hnd2).
    apply NoDup_cons in Hnd2 as [Hl2 _].
    assert (i ∉ l1) as Hl1' by (intros Hin; apply (Hl1 i Hin); by left).
    rewrite settleAll_app_world, (settleAll_cons_world _ _ _ _ t) by done.
    rewrite settleAll_untouched by by apply Hothers.
    rewrite monitorSite_world, Hful.
    pose proof (settleAll_untouched enabled tasks l1 (name (site t)) w
                  (Hothers l1 Hl1')) as Hw1.
    rewrite Hs in Hw1.
    destruct (update_known_counts enabled (name (site t)) r (handledAt t)
                _ s Hw1) as (s' & Hs' & Hl' & Hc').
    destruct (update_frame enabled (name (site t)) r (handledAt t)
                (snd (settleAll (monitorSite enabled) tasks l1 w)))
      as (_ & _ & Hsite & _).
    destruct (Hsite s Hw1) as (s'' & Hs'' & _ & _ & _ & Hchk & Hcode & Herr & _).
    cbv zeta in Hs''. rewrite Hs' in Hs''. injection Hs'' as <-.
    by exists s'.
  - intros Hskip. apply settleAll_untouched.
    intros j tj Hj Htj. destruct (decide (j = i)) as [-> | Hne].
    + destruct Hskip as [Hout | Hrej]; [done |].
      right. by rewrite Ht in Htj; injection Htj as <-.
    + left. by eapply (distinct_names tasks j i).
Qed.

Lemma monitorSite_change (enabled : bool) (t : Task) (w : World) :
  exists change,
    fst (monitorSite enabled t w) = Fulfilled (cycleResult t, change) /\
    forall ev, change = Some ev ->
      siteName ev = name (site t) /\
      previousStatus ev ≠ newStatus ev /\
      (exists r, settled t = Fulfilled r /\ newStatus ev = status r) /\
      (1 <= ev_changeCount ev)%N /\
      changedAt ev = handledAt t.
Proof.
  unfold monitorSite, cycleResult, then_, catch_, bind, ret.
  destruct (settled t) as [result | reason]; [| by exists None].
  update_cases enabled (name (site t)) result (handledAt t) w; cbn;
    [| by exists None | by exists None].
  eexists. split; [reflexivity |]. intros ev [= <-]. cbn.
  apply statusChanged_Some in Hc as [_ Hne].
  repeat split; [done | by exists result | lia].
Qed.

(** X9: every change reported by a cycle whose probed sites are tracked or
    have names that are not reserved is real: it names the site of a probe
    of that cycle that was fulfilled, its new status is the status of that
    probe and differs from its previous status, its count is at least one,
    and its time is the time at which the probe was handled. *)
Theorem reported_changes_are_real (enabled : bool) (tasks : list Task)
    (order : list nat) (timestamp : Z) (w : World) (report : Report)
    (ev : ChangeEvent) :
  (forall t, t ∈ tasks -> ownLookup w (name (site t))) ->
  fst (performAutomaticMonitoring enabled tasks order timestamp w)
  = Some (Fulfilled report) ->
  ev ∈ stateChanges report ->
  exists t r,
    t ∈ tasks /\ settled t = Fulfilled r /\
    siteName ev = name (site t) /\
    newStatus ev = status r /\
    previousStatus ev ≠ newStatus ev /\
    (1 <= ev_changeCount ev)%N /\
    changedAt ev = handledAt t.
Proof.
  intros _ Hrep Hev. rewrite (report_changes _ _ _ _ _ _ Hrep) in Hev.
  destruct (settleAll_spec (monitorSite enabled)
              (fun t p => exists change,
                 p = Fulfilled (cycleResult t, change) /\
                 forall ev, change = Some ev ->
                   siteName ev = name (site t) /\
                   previousStatus ev ≠ newStatus ev /\
                   (exists r, settled t = Fulfilled r /\ newStatus ev = status r) /\
                   (1 <= ev_changeCount ev)%N /\
                   changedAt ev = handledAt t)
              tasks order (monitorSite_change enabled) w) as [Hall _].
  unfold pushedChanges in Hev.
  apply list_elem_of_omap in Hev as ([i p] & Hin & Hp). cbn in Hp.
  rewrite Forall_forall in Hall.
  destruct (Hall _ Hin) as (t & Ht & change & Hpe & Hchange).
  cbn in Ht, Hpe. subst p.
  destruct change as [ev' |]; [| done]. injection Hp as ->.
  destruct (Hchange ev eq_refl) as (Hname & Hne & (r & Hr & Hnew) & Hcount & Hat).
  exists t, r. repeat split; try done. by eapply list_elem_of_lookup_2.
Qed.

(** X10: start-up on an empty tracker.  After initialisation and the first
    cycle, whose probes have distinct names that are not reserved and settle
    at most once, no change has been reported and no alert posted; for a
    name that is not reserved, the site status endpoint knows the site if it
    was listed at initialisation and answers 404 otherwise, also for a site
    that the first cycle probed. *)
Theorem startup_first_cycle (enabled : bool) (sites : list Site)
    (tasks : list Task) (order : list nat) (timestamp : Z)
    (sent : list TelegramAlert) (report : Report) :
  NoDup (map (fun t => name (site t)) tasks) ->
  NoDup order ->
  (forall t, t ∈ tasks -> name (site t) ∉ reservedNames) ->
  let w0 := {| monitoringState := ∅; outbox := sent |} in
  let run := setupAutomaticMonitoring enabled sites tasks order timestamp w0 in
  fst run = Some (Fulfilled report) ->
  stateChanges report = [] /\
  outbox (snd run) = sent /\
  (forall n ts,
     n ∉ reservedNames ->
     (fst (apiSiteStatus n ts (snd run)) = SiteStatus404 n <->
      n ∉ map name sites)).
Proof.
  intros Hnames Hnd _. cbv zeta. rewrite setup_world. intros Hrep.
  set (w0 := {| monitoringState := ∅; outbox := sent |}) in *.
  set (w1 := snd (initializeMonitoringState sites w0)) in *.
  assert (forall n, monitoringState w1 !! n
                    = freshSiteState <$>
                        head (filter (fun site => name site = n) sites)) as Hw1.
  { intros n. unfold w1. rewrite (proj1 (initialize_lookup_eq sites w0 n)).
    unfold w0. cbn. by rewrite lookup_empty. }
  destruct (first_observation_quiet enabled tasks order timestamp w1
              report Hnames Hnd) as [Hch Hout]; [| done |].
  { intros t s _ Hs. rewrite Hw1 in Hs.
    destruct (head _) as [site0 |]; [| done]. by injection Hs as <-. }
  split; [done |]. split.
  { rewrite Hout. unfold w1. by rewrite initialize_outbox. }
  intros n ts _.
  destruct (cycle_extends enabled tasks order timestamp w1)
    as [_ H404].
  rewrite (H404 n ts ts).
  unfold apiSiteStatus, bind, getSiteState, ret. cbn. rewrite Hw1.
  destruct (head (filter (fun site => name site = n) sites)) as [site0 |] eqn:Hh.
  - cbn. split; [done |]. intros Hn. exfalso. apply Hn.
    apply head_Some_elem_of in Hh. apply list_elem_of_filter in Hh as [<- Hin].
    change (map name sites) with (name <$> sites). by apply list_elem_of_fmap_2.
  - cbn. split; [| done]. intros _ Hn.
    change (map name sites) with (name <$> sites) in Hn.
    apply list_elem_of_fmap_1 in Hn as (site0 & -> & Hin).
    apply head_None in Hh.
    assert (site0 ∈ filter (fun site => name site = name site0) sites) as Hf
      by by apply list_elem_of_filter.
    rewrite Hh in Hf. by apply elem_of_nil in Hf.
Qed.

(** ** Manual check *)

Lemma promiseAllFrom_values {A} (n : nat) (chains : list (nat * Promise A)) :
  forall (got : gmap nat A) (values : list A),
    promiseAllFrom n chains got = Some (Fulfilled values) ->
    length values = n /\
    forall i v, values !! i = Some v ->
      got !! i = Some v \/ (i, Fulfilled v) ∈ chains.
Proof.
  induction chains as [| [i0 [v0 | r0]] rest IH]; intros got values Hall.
  - cbn in Hall.
    destruct (mapM (fun i => got !! i) (seq 0 n)) as [vs |] eqn:Hvs;
      [| discriminate].
    injection Hall as ->. apply mapM_Some_1 in Hvs. split.
    + apply Forall2_length in Hvs. by rewrite length_seq in Hvs.
    + intros i v Hi. left.
      destruct (Forall2_lookup_r _ _ _ _ _ Hvs Hi) as (j & Hj & Hgot).
      apply lookup_seq in Hj as [-> _]. done.
  - cbn [promiseAllFrom] in Hall.
    destruct (IH _ _ Hall) as [Hlen Hlook]. split; [done |].
    intros i v Hi. destruct (Hlook i v Hi) as [Hgot | Hin]; [| right; by right].
    destruct (decide (i0 = i)) as [<- | Hne].
    + rewrite lookup_insert_eq in Hgot. injection Hgot as <-. right. by left.
    + rewrite lookup_insert_ne in Hgot by done. by left.
  - discriminate.
Qed.

Lemma settleAll_indices {T A} (chain : T -> Tracker (Promise A))
    (tasks : list T) (order : list nat) :
  forall w i p, (i, p) ∈ fst (settleAll chain tasks order w) -> i ∈ order.
Proof.
  induction order as [| i0 rest IH]; intros w i p Hin.
  - by apply elem_of_nil in Hin.
  - cbn [settleAll] in Hin. destruct (tasks !! i0) as [t |].
    + unfold bind, ret in Hin. destruct (chain t w) as [p0 w1].
      specialize (IH w1 i p).
      destruct (settleAll chain tasks rest w1) as [ps w2]. cbn in *.
      apply elem_of_cons in Hin as [[= -> ->] | Hin]; [by left |].
      right. by apply IH.
    + right. by eapply IH.
Qed.

Lemma apiCheck_200_inv (tasks : list Task) (order : list nat)
    (timestamp : Z) (w : World) (ts : Z) (s : Summary)
    (sites : list SiteResult) :
  fst (apiCheck tasks order timestamp w) = Some (Status200 ts s sites) ->
  ts = timestamp /\
  tasks ≠ [] /\
  (forall i t, tasks !! i = Some t ->
     i ∈ order /\
     exists r, settled t = Fulfilled r /\
       sites !! i = Some {| r_name := name (site t);
                            r_url := url (site t);
                            r_check := r |}) /\
  length sites = length tasks /\
  s = summarize sites /\
  (1 <= total s)%nat /\
  (up s + down s)%nat = total s.
Proof.
  unfold apiCheck. case_bool_decide as Hlen; [discriminate |].
  unfold bind, ret.
  destruct (settleAll_spec checkOnly
              (fun t p => p = match settled t with
                              | Fulfilled result =>
                                  Fulfilled {| r_name := name (site t);
                                               r_url := url (site t);
                                               r_check := result |}
                              | Rejected reason => Rejected reason
                              end)
              tasks order
              (fun t w' => f_equal fst (checkOnly_value t w')) w) as [Hall _].
  pose proof (settleAll_indices checkOnly tasks order w) as Hidx.
  destruct (settleAll checkOnly tasks order w) as [chains w1]. cbn [fst] in *.
  unfold promiseAll.
  destruct (promiseAllFrom (length tasks) chains ∅) as [[values | reason] |]
    eqn:Hvalues; [| discriminate | discriminate].
  intros [= <- <- <-].
  destruct (promiseAllFrom_values _ _ _ _ Hvalues) as [Hlenv Hlook].
  split; [done |]. split; [by intros -> |]. split; [| split; [done |]].
  - intros i t Ht.
    destruct (values !! i) as [v |] eqn:Hv.
    + destruct (Hlook i v Hv) as [Hgot | Hin];
        [by rewrite lookup_empty in Hgot |].
      split; [by eapply Hidx |].
      rewrite Forall_forall in Hall.
      destruct (Hall _ Hin) as (t' & Ht' & Hp). cbn in Ht', Hp.
      rewrite Ht in Ht'. injection Ht' as <-.
      destruct (settled t) as [r | reason]; [| discriminate].
      injection Hp as ->. by exists r.
    + apply lookup_ge_None in Hv. apply lookup_lt_Some in Ht. lia.
  - split; [done |]. cbn. split; [| apply count_up_down].
    rewrite Hlenv. destruct tasks; [done | cbn; lia].
Qed.

(** X11: the manual check answers 200 only when there is at least one site
    and the probe of every site has settled with a result.  The answer then
    lists one result per site, in the order of the sites, each the result
    of that site's probe under the site's name and url; its summary counts
    these results, so [total] is at least one and [up + down = total]. *)
Theorem manual_check_200_answer (tasks : list Task) (order : list nat)
    (timestamp : Z) (w : World) (ts : Z) (s : Summary)
    (sites : list SiteResult) :
  fst (apiCheck tasks order timestamp w) = Some (Status200 ts s sites) ->
  ts = timestamp /\
  tasks ≠ [] /\
  (forall i t, tasks !! i = Some t ->
     i ∈ order /\
     exists r, settled t = Fulfilled r /\
       sites !! i = Some {| r_name := name (site t);
                            r_url := url (site t);
                            r_check := r |}) /\
  length sites = length tasks /\
  s = summarize sites /\
  (1 <= total s)%nat /\
  (up s + down s)%nat = total s.
Proof. apply apiCheck_200_inv. Qed.

Lemma apiCheck_500_from (tasks : list Task) (n : nat) (reason : string)
    (order : list nat) :
  forall (got : gmap nat SiteResult) (w : World),
    promiseAllFrom n (fst (settleAll checkOnly tasks order w)) got
    = Some (Rejected reason) <->
    exists pre i post t,
      order = (pre ++ i :: post)%list /\
      tasks !! i = Some t /\ settled t = Rejected reason /\
      forall j tj, j ∈ pre -> tasks !! j = Some tj ->
        exists r, settled tj = Fulfilled r.
Proof.
  induction order as [| i0 rest IH]; intros got w.
  - cbn. split.
    + destruct (mapM _ _); discriminate.
    + intros (pre & i & post & t & Hord & _). by destruct pre.
  - assert (forall P : Prop,
              (exists pre i post t,
                 rest = (pre ++ i :: post)%list /\
                 tasks !! i = Some t /\ settled t = Rejected reason /\
                 forall j tj, j ∈ pre -> tasks !! j = Some tj ->
                   exists r, settled tj = Fulfilled r) ->
              (forall tj, tasks !! i0 = Some tj ->
                 exists r, settled tj = Fulfilled r) ->
              exists pre i post t,
                i0 :: rest = (pre ++ i :: post)%list /\
                tasks !! i = Some t /\ settled t = Rejected reason /\
                forall j tj, j ∈ pre -> tasks !! j = Some tj ->
                  exists r, settled tj = Fulfilled r) as Hlater.
    { intros _ (pre & i & post & t & -> & Ht & Hrej & Hpre) Hi0.
      exists (i0 :: pre), i, post, t. repeat split; [done | done |].
      intros j tj Hj Htj. apply elem_of_cons in Hj as [-> | Hj];
        [by apply Hi0 | by eapply Hpre]. }
    cbn [settleAll]. destruct (tasks !! i0) as [t0 |] eqn:Ht0.
    + unfold bind, ret. rewrite checkOnly_value.
      specialize (IH (<[i0 := {| r_name := name (site t0);
                                 r_url := url (site t0);
                                 r_check := match settled t0 with
                                            | Fulfilled r => r
                                            | Rejected _ =>
                                                mkCheckResult DOWN None None 0
                                                  None None
                                            end |}]> got) w).
      destruct (settleAll checkOnly tasks rest w) as [ps w1]. cbn [fst] in *.
      destruct (settled t0) as [r0 | reason0] eqn:Hset0; cbn [promiseAllFrom].
      * rewrite IH. split.
        -- intros Hex. apply (Hlater True Hex).
           intros tj [= <-]. by exists r0.
        -- intros (pre & i & post & t & Hord & Ht & Hrej & Hpre).
           destruct pre as [| j pre]; cbn in Hord; injection Hord as -> ->.
           ++ rewrite Ht0 in Ht. injection Ht as <-. congruence.
           ++ exists pre, i, post, t. repeat split; [done | done |].
              intros j' tj Hj. apply Hpre. by right.
      * split.
        -- intros [= ->]. exists [], i0, rest, t0. repeat split; [done | done |].
           intros j tj Hj. by apply elem_of_nil in Hj.
        -- intros (pre & i & post & t & Hord & Ht & Hrej & Hpre).
           destruct pre as [| j pre]; cbn in Hord; injection Hord as -> ->.
           ++ rewrite Ht0 in Ht. injection Ht as <-. congruence.
           ++ destruct (Hpre j t0) as [r Hr]; [by left | done |]. congruence.
    + rewrite IH. split.
      * intros Hex. apply (Hlater True Hex). by intros tj.
      * intros (pre & i & post & t & Hord & Ht & Hrej & Hpre).
        destruct pre as [| j pre]; cbn in Hord; injection Hord as -> ->.
        -- congruence.
        -- exists pre, i, post, t. repeat split; [done | done |].
           intros j' tj Hj. apply Hpre. by right.
Qed.

Lemma apiCheck_failures (tasks : list Task) (order : list nat)
    (timestamp : Z) (w : World) :
  (fst (apiCheck tasks order timestamp w) = Some Status400 <-> tasks = []) /\
  (forall reason,
     fst (apiCheck tasks order timestamp w) = Some (Status500 reason) <->
     tasks ≠ [] /\
     exists pre i post t,
       order = (pre ++ i :: post)%list /\
       tasks !! i = Some t /\ settled t = Rejected reason /\
       forall j tj, j ∈ pre -> tasks !! j = Some tj ->
         exists r, settled tj = Fulfilled r).
Proof.
  unfold apiCheck. case_bool_decide as Hlen.
  - apply nil_length_inv in Hlen. subst tasks. cbn.
    split; [done |]. intros reason. split; [discriminate | by intros [? _]].
  - assert (tasks ≠ []) as Hne by (by intros ->).
    unfold bind, ret.
    pose proof (apiCheck_500_from tasks (length tasks)) as H500.
    destruct (settleAll checkOnly tasks order w) as [chains w1] eqn:Hchains.
    cbn [fst]. unfold promiseAll. split.
    + split; [| done].
      by destruct (promiseAllFrom (length tasks) chains ∅) as [[? | ?] |].
    + intros reason. specialize (H500 reason order ∅ w).
      rewrite Hchains in H500. cbn [fst] in H500. rewrite <- H500.
      destruct (promiseAllFrom (length tasks) chains ∅) as [[? | ?] |];
        split; try done; try (by intros [_ ?]).
      * by intros [= ->].
      * intros [_ [= ->]]. done.
Qed.

(** X12: when the manual check fails.  It answers 400 exactly when no site
    is configured.  It answers 500 exactly when, among the probes in the
    order in which they settle, one is rejected and all that settled before
    it were fulfilled; the answer carries the message of that first
    rejection, and the probes that have not settled by then do not
    matter. *)
Theorem manual_check_failures (tasks : list Task) (order : list nat)
    (timestamp : Z) (w : World) :
  (fst (apiCheck tasks order timestamp w) = Some Status400 <-> tasks = []) /\
  (forall reason,
     fst (apiCheck tasks order timestamp w) = Some (Status500 reason) <->
     tasks ≠ [] /\
     exists pre i post t,
       order = (pre ++ i :: post)%list /\
       tasks !! i = Some t /\ settled t = Rejected reason /\
       forall j tj, j ∈ pre -> tasks !! j = Some tj ->
         exists r, settled tj = Fulfilled r).
Proof. apply apiCheck_failures. Qed.

(** ** Status endpoints *)

Lemma count_last_status (l : list SiteState) :
  (countLastStatus UP l + countLastStatus DOWN l
   + length (filter (fun s => lastStatus s = None) l))%nat = length l.
Proof.
  unfold countLastStatus. induction l as [| s l IH]; [done |].
  rewrite !filter_cons.
  destruct (lastStatus s) as [[|] |] eqn:Hst;
    repeat (case_decide; try congruence); cbn; lia.
Qed.

(** X13: the summary of [GET /api/status].  The handler changes nothing;
    [total] is the number of tracked sites and the answer lists exactly
    their states.  Sites that were never checked count neither as up nor as
    down, so [up + down] can stay below [total]: the two are equal exactly
    when every tracked site has a status. *)
Theorem status_summary_counts (timestamp : Z) (w : World) :
  let a := fst (apiStatus timestamp w) in
  snd (apiStatus timestamp w) = w /\
  total (sa_summary a) = size (monitoringState w) /\
  (forall s, s ∈ sa_sites a <-> exists n, monitoringState w !! n = Some s) /\
  (up (sa_summary a) + down (sa_summary a) <= total (sa_summary a))%nat /\
  ((up (sa_summary a) + down (sa_summary a))%nat = total (sa_summary a) <->
   forall n s, monitoringState w !! n = Some s -> lastStatus s ≠ None).
Proof.
  cbv zeta. unfold apiStatus. cbn.
  set (l := (map_to_list (monitoringState w)).*2).
  assert (forall s, s ∈ l <-> exists n, monitoringState w !! n = Some s) as Hmem.
  { intros s. unfold l. rewrite list_elem_of_fmap. split.
    - intros ([n s'] & -> & Hin). exists n. by apply elem_of_map_to_list.
    - intros (n & Hn). exists (n, s). split; [done |].
      by apply elem_of_map_to_list. }
  pose proof (count_last_status l) as Hcount.
  split; [done |]. split; [unfold l; by rewrite length_fmap, length_map_to_list |].
  split; [done |]. split; [lia |]. split.
  - intros Heq n s Hs Hnone.
    assert (s ∈ filter (fun s => lastStatus s = None) l) as Hin
      by (apply list_elem_of_filter; split; [done | apply Hmem; by exists n]).
    destruct (filter (fun s => lastStatus s = None) l);
      [by apply elem_of_nil in Hin | cbn in Hcount; lia].
  - intros Hall.
    destruct (filter (fun s => lastStatus s = None) l) as [| s rest] eqn:Hf;
      [cbn in Hcount; lia |].
    assert (s ∈ filter (fun s => lastStatus s = None) l) as Hin
      by (rewrite Hf; by left).
    apply list_elem_of_filter in Hin as [Hnone Hin].
    apply Hmem in Hin as [n Hn]. by destruct (Hall n s Hn).
Qed.

Example status_after_startup :
  sa_summary (fst (apiStatus 7000 seededWorld))
  = {| total := 2; up := 0; down := 0 |}.
Proof. vm_compute. reflexivity. Qed.

(** * Properties of the dashboard *)

(** X14: the text of [getTimeAgo].  The amount shown is the elapsed time in
    whole units, rounded down; seconds are shown below one minute, minutes
    (1 to 59) below one hour, hours (1 to 23) below one day and days from
    then on.  A time in the future is shown as a negative number of
    seconds. *)
Theorem getTimeAgo_bounds (now date : Z) :
  let secondsAgo := (now - date) / 1000 in
  let amount := fst (getTimeAgo now date) in
  let unit := snd (getTimeAgo now date) in
  amount * unitSeconds unit <= secondsAgo < (amount + 1) * unitSeconds unit /\
  match unit with
  | Seconds => amount < 60
  | Minutes => 1 <= amount < 60
  | Hours => 1 <= amount < 24
  | Days => 1 <= amount
  end /\
  (now < date <-> amount < 0) /\
  (amount < 0 -> unit = Seconds).
Proof.
  cbv zeta. unfold getTimeAgo.
  assert (now < date <-> (now - date) / 1000 < 0) as Hneg
    by (Z.div_mod_to_equations; lia).
  destruct ((now - date) / 1000 <? 60) eqn:H1; [| apply Z.ltb_ge in H1].
  { apply Z.ltb_lt in H1. cbn. repeat split; try lia; tauto. }
  destruct ((now - date) / 1000 <? 3600) eqn:H2; [| apply Z.ltb_ge in H2].
  { apply Z.ltb_lt in H2. cbn [fst snd unitSeconds].
    repeat split; try (Z.div_mod_to_equations; lia). }
  destruct ((now - date) / 1000 <? 86400) eqn:H3; [| apply Z.ltb_ge in H3].
  { apply Z.ltb_lt in H3. cbn [fst snd unitSeconds].
    repeat split; try (Z.div_mod_to_equations; lia). }
  cbn [fst snd unitSeconds].
  repeat split; try (Z.div_mod_to_equations; lia).
Qed.

(** The body of [pingBackend], as the source has it. *)
Lemma pingBackend_source (health : nat -> FetchOutcome)
    (retryCount maxRetries : nat) (banner : option BannerText) :
  pingBackend health retryCount maxRetries banner
  = match health retryCount with
    | FetchOk => (None, 1%nat)
    | FetchNotOk => (banner, 1%nat)
    | FetchFails =>
        if decide (retryCount < maxRetries)%nat then
          (fst (pingBackend health (retryCount + 1) maxRetries
                  (Some (WarmingUp (retryCount + 1) maxRetries))),
           S (snd (pingBackend health (retryCount + 1) maxRetries
                     (Some (WarmingUp (retryCount + 1) maxRetries)))))
        else (Some NotResponding, 1%nat)
    end.
Proof.
  simp pingBackend. destruct (health retryCount); simp pingBackend; try done.
  destruct (decide (retryCount < maxRetries)%nat); simp pingBackend; [| done].
  by match goal with |- context [let '(_, _) := ?x in _] => destruct x end.
Qed.

(** X15: the retries of [pingBackend].  It fetches at least once and at
    most once more than the retries that are left.  Every fetch but the
    last one was rejected, and the last one decides what the banner shows:
    it is hidden after a response that is ok; after a rejection the retries
    are used up and the banner says the backend is not responding; after a
    response that is not ok nothing is shown or scheduled, so the banner
    keeps the warming-up message of the last retry (or what it showed
    before, if this was the first fetch). *)
Theorem pingBackend_retries (health : nat -> FetchOutcome)
    (retryCount maxRetries : nat) (banner : option BannerText) :
  let shown := fst (pingBackend health retryCount maxRetries banner) in
  let fetches := snd (pingBackend health retryCount maxRetries banner) in
  (1 <= fetches <= maxRetries - retryCount + 1)%nat /\
  (forall k, (k < fetches - 1)%nat -> health (retryCount + k)%nat = FetchFails) /\
  match health (retryCount + fetches - 1)%nat with
  | FetchOk => shown = None
  | FetchNotOk =>
      shown = if decide (fetches = 1%nat) then banner
              else Some (WarmingUp (retryCount + fetches - 1) maxRetries)
  | FetchFails =>
      shown = Some NotResponding /\
      fetches = (maxRetries - retryCount + 1)%nat
  end.
Proof.
  cbv zeta. remember (maxRetries - retryCount)%nat as budget eqn:Hb.
  revert retryCount banner Hb.
  induction budget as [| budget IH]; intros retryCount banner Hb;
    rewrite pingBackend_source.
  - destruct (health retryCount) eqn:Hh; cbn [fst snd].
    + replace (retryCount + 1 - 1)%nat with retryCount by lia. rewrite Hh.
      repeat split; try (intros k Hk); try lia; try done.
    + replace (retryCount + 1 - 1)%nat with retryCount by lia. rewrite Hh.
      repeat split; try (intros k Hk); try lia; try done.
    + destruct (decide (retryCount < maxRetries)%nat); [lia |]. cbn [fst snd].
      replace (retryCount + 1 - 1)%nat with retryCount by lia. rewrite Hh.
      repeat split; try (intros k Hk); try lia; try done.
  - destruct (health retryCount) eqn:Hh; cbn [fst snd].
    + replace (retryCount + 1 - 1)%nat with retryCount by lia. rewrite Hh.
      repeat split; try (intros k Hk); try lia; try done.
    + replace (retryCount + 1 - 1)%nat with retryCount by lia. rewrite Hh.
      repeat split; try (intros k Hk); try lia; try done.
    + destruct (decide (retryCount < maxRetries)%nat); [| lia]. cbn [fst snd].
      destruct (IH (retryCount + 1)%nat
                  (Some (WarmingUp (retryCount + 1) maxRetries)))
        as ([Hlo Hhi] & Hfails & Hlast); [lia |].
      set (n := snd (pingBackend health (retryCount + 1) maxRetries
                       (Some (WarmingUp (retryCount + 1) maxRetries)))) in *.
      split; [lia |]. split.
      * intros k Hk. destruct k as [| k]; [by rewrite Nat.add_0_r |].
        replace (retryCount + S k)%nat with (retryCount + 1 + k)%nat by lia.
        apply Hfails. lia.
      * replace (retryCount + S n - 1)%nat with (retryCount + 1 + n - 1)%nat
          by lia.
        destruct (health (retryCount + 1 + n - 1)%nat).
        -- done.
        -- rewrite Hlast. destruct (decide (S n = 1%nat)); [lia |].
           destruct (decide (n = 1%nat)) as [-> | Hn];
             repeat f_equal; try lia.
        -- destruct Hlast as [-> ->]. split; [done | lia].
Qed.

Example pingBackend_gives_up :
  pingBackend (fun _ => FetchFails) 0 3 None = (Some NotResponding, 4%nat).
Proof. reflexivity. Qed.

Example pingBackend_stuck_on_503 :
  pingBackend (fun k => if decide (k = 1%nat) then FetchNotOk else FetchFails)
    0 3 None
  = (Some (WarmingUp 1 3), 2%nat).
Proof. reflexivity. Qed.

(** X16: the page's check against this backend.  Whatever the manual check
    answers, the page is ready for the next check afterwards and never
    says that no site is configured: with no site the backend answers 400
    and the page reports that status, keeping the cards it showed.  After a
    200 answer the banner is hidden, there is one card per configured site,
    the stat cards show the counts of the answer's own summary, and the
    answer is what [localStorage] holds when it works. *)
Theorem dashboard_check_with_backend (storageWorks : bool) (tasks : list Task)
    (order : list nat) (timestamp : Z) (w : World) (a : HttpResponse)
    (d : Dashboard) :
  fst (apiCheck tasks order timestamp w) = Some a ->
  isChecking d = false ->
  let d' := checkSites storageWorks (CheckAnswered a) d in
  isChecking d' = false /\
  banner d' ≠ Some NoSitesConfigured /\
  (tasks = [] ->
   banner d' = Some (ErrorShown (BackendReturned 400)) /\
   cards d' = cards d /\ stats d' = stats d /\ stored d' = stored d) /\
  (forall ts s sites, a = Status200 ts s sites ->
     banner d' = None /\
     cards d' = sites /\
     length (cards d') = length tasks /\
     stats d' = Some s /\
     lastChecked d' = Some timestamp /\
     (storageWorks = true -> stored d' = Some (timestamp, s, sites))).
Proof.
  intros Ha Hidle. cbv zeta. unfold checkSites. rewrite Hidle.
  destruct a as [| ts s sites | reason].
  - cbn. repeat split; try done.
  - destruct (apiCheck_200_inv _ _ _ _ _ _ _ Ha)
      as (-> & Hne & _ & Hlen & Hs & _).
    destruct sites as [| r sites];
      [destruct tasks; [done | discriminate] |].
    destruct storageWorks; cbn.
    + split; [done |]. split; [done |]. split; [done |].
      intros ts' s' sites' [= <- <- <-]. repeat split; try done.
      by rewrite Hs.
    + split; [done |]. split; [done |]. split; [done |].
      intros ts' s' sites' [= <- <- <-]. repeat split; try done.
      by rewrite Hs.
  - cbn. split; [done |]. split; [done |]. split; [| done].
    intros ->. by apply apiCheck_failures in Ha as [? _].
Qed.

(** ** Instances *)

(** A closed decidable goal, by evaluation. *)
Ltac closed_decide :=
  match goal with
  | |- ?P => apply (@bool_decide_unpack P _); vm_compute; exact I
  end.

(** The names of the listed sample tasks are not reserved. *)
Ltac sample_names :=
  let t := fresh "t" in
  let Ht := fresh "Ht" in
  intros t Ht;
  repeat (apply elem_of_cons in Ht as [-> | Ht];
          [first [closed_decide | left; closed_decide] |]);
  by apply elem_of_nil in Ht.

Lemma initialize_lookup_instance :
  monitoringState (snd (initializeMonitoringState [siteA; siteB] emptyWorld))
    !! "B"
  = Some (freshSiteState siteB) /\
  outbox (snd (initializeMonitoringState [siteA; siteB] emptyWorld)) = [].
Proof.
  apply (initialize_lookup [siteA; siteB] emptyWorld "B").
  left. closed_decide.
Defined.

Lemma cycle_posts_one_alert_per_change_instance :
  exists new : list TelegramAlert,
    outbox (snd (performAutomaticMonitoring true [probeA503] [0%nat] 306000
                   checkedWorld))
    = (outbox checkedWorld ++ new)%list /\
    map alertKey new = [("A", UP, DOWN)].
Proof.
  edestruct (cycle_posts_one_alert_per_change true [probeA503] [0%nat] 306000
               checkedWorld) as (new & Hout & Hon & _).
  - vm_compute. reflexivity.
  - exists new. split; [exact Hout |]. rewrite (Hon eq_refl). reflexivity.
Defined.

Lemma first_observation_is_no_change_instance :
  exists report,
    fst (performAutomaticMonitoring true [probeA; probeB] [1%nat; 0%nat] 6000
           seededWorld)
    = Some (Fulfilled report) /\
    stateChanges report = [] /\
    outbox (snd (performAutomaticMonitoring true [probeA; probeB]
                   [1%nat; 0%nat] 6000 seededWorld))
    = outbox seededWorld.
Proof.
  eexists. split; [vm_compute; reflexivity |].
  apply (first_observation_is_no_change true [probeA; probeB] [1%nat; 0%nat]
           6000 seededWorld).
  - closed_decide.
  - closed_decide.
  - sample_names.
  - intros t s Ht.
    apply elem_of_cons in Ht as [-> | Ht];
      [vm_compute; by intros [= <-] |].
    apply elem_of_cons in Ht as [-> | Ht];
      [vm_compute; by intros [= <-] |].
    by apply elem_of_nil in Ht.
  - vm_compute. reflexivity.
Defined.

Lemma cycle_records_each_probe_instance :
  let w' := snd (performAutomaticMonitoring true [probeA; probeBroken]
                   [1%nat; 0%nat] 6000 seededWorld) in
  (exists s', monitoringState w' !! "A" = Some s' /\
     lastStatus s' = Some UP /\ lastStatusCode s' = Some 200 /\
     changeCount s' = 0%N) /\
  monitoringState w' !! "B" = monitoringState seededWorld !! "B".
Proof.
  assert (NoDup (map (fun t => name (site t)) [probeA; probeBroken])) as Hnames
    by closed_decide.
  assert (NoDup [1%nat; 0%nat]) as Hnd
    by closed_decide.
  cbv zeta. split.
  - destruct (proj1 (cycle_records_each_probe true [probeA; probeBroken]
                       [1%nat; 0%nat] 6000 seededWorld 0 probeA Hnames Hnd
                       eq_refl)
                (checkSite 0 50 50 (Response 200)) (freshSiteState siteA))
      as (s' & Hs' & Hl & _ & Hcode & _ & Hcount).
    + closed_decide.
    + reflexivity.
    + vm_compute. reflexivity.
    + exists s'. split; [exact Hs' |]. split; [exact Hl |].
      split; [exact Hcode | exact Hcount].
  - apply (proj2 (cycle_records_each_probe true [probeA; probeBroken]
                    [1%nat; 0%nat] 6000 seededWorld 1 probeBroken Hnames Hnd
                    eq_refl)).
    right. by exists "boom".
Defined.

Lemma reported_changes_are_real_instance :
  exists t r,
    t ∈ [probeA503] /\ settled t = Fulfilled r /\
    "A" = name (site t) /\ DOWN = status r /\ UP ≠ DOWN /\
    (1 <= 1)%N /\ 300041 = handledAt t.
Proof.
  eapply (reported_changes_are_real true [probeA503] [0%nat] 306000
            checkedWorld _ (mkChangeEvent "A" UP DOWN 300041 1)).
  - sample_names.
  - vm_compute. reflexivity.
  - cbn. apply list_elem_of_here.
Defined.

Lemma startup_first_cycle_instance :
  let run := setupAutomaticMonitoring true [siteA; siteB] [probeA; probeB]
               [0%nat; 1%nat] 6000 emptyWorld in
  outbox (snd run) = [] /\
  (forall n ts,
     n ∉ reservedNames ->
     (fst (apiSiteStatus n ts (snd run)) = SiteStatus404 n <->
      n ∉ map name [siteA; siteB])).
Proof.
  cbv zeta.
  edestruct (startup_first_cycle true [siteA; siteB] [probeA; probeB]
               [0%nat; 1%nat] 6000 []) as (_ & Hout & H404).
  - closed_decide.
  - closed_decide.
  - sample_names.
  - vm_compute. reflexivity.
  - split; [exact Hout | exact H404].
Defined.

Lemma manual_check_200_answer_instance :
  exists ts s sites,
    fst (apiCheck [probeA; probeB] [1%nat; 0%nat] 6000 seededWorld)
    = Some (Status200 ts s sites) /\
    length sites = 2%nat /\ (up s + down s)%nat = total s.
Proof.
  eexists _, _, _. split; [vm_compute; reflexivity |].
  edestruct (manual_check_200_answer [probeA; probeB] [1%nat; 0%nat] 6000
               seededWorld) as (_ & _ & _ & Hlen & _ & _ & Hsum).
  - vm_compute. reflexivity.
  - split; [exact Hlen | exact Hsum].
Defined.

Lemma dashboard_check_with_backend_instance :
  exists a,
    fst (apiCheck [probeA; probeB] [1%nat; 0%nat] 6000 seededWorld) = Some a /\
    isChecking (checkSites true (CheckAnswered a) idleDashboard) = false /\
    banner (checkSites true (CheckAnswered a) idleDashboard)
    ≠ Some NoSitesConfigured.
Proof.
  eexists. split; [vm_compute; reflexivity |].
  match goal with
  | |- isChecking (checkSites _ (CheckAnswered ?a) _) = _ /\ _ =>
      destruct (dashboard_check_with_backend true [probeA; probeB]
                  [1%nat; 0%nat] 6000 seededWorld a idleDashboard)
        as (Hidle & Hbanner & _)
  end.
  - vm_compute. reflexivity.
  - reflexivity.
  - split; [exact Hidle | exact Hbanner].
Defined.
